(** * DRRN-pytorch: the training orchestration of [main.py]

    A shallow embedding of [main.py] (learning-rate schedule, per-batch
    optimisation step with gradient clipping, checkpointing and resume) and
    the properties its specification states about it.

    - Python [int] is [Z]; Python [float] is IEEE binary64, taken from
      [SpecFloat] ([prec = 53], [emax = 1024]) with round-to-nearest-even.
    - Python exceptions are an explicit [Raise] outcome.
    - The network, the loss, [clip_grad_norm], the SGD update and the data
      loader are opaque collaborators: section variables.
    - The file system is a finite map from paths to nodes; [print] appends
      to a list of lines. *)

From Stdlib Require Import ZArith QArith Qpower Qfield Qround Lia Bool List FinFun.
From Stdlib Require Import Floats.SpecFloat.
From stdpp Require Import gmap strings pretty.

Local Open Scope Z_scope.

(** ** Outcomes of Python expressions *)

Inductive exn : Set :=
| ZeroDivisionError      (* [a // 0], [x / 0.0] *)
| OverflowError          (* [float ** int] out of range, [int] too large for a float *)
| IndexError             (* [l[0]] on an empty list *)
| NoGPUFound             (* [Exception("No GPU found, please run without --cuda")] *)
| FileNotFoundError      (* [torch.load] of a path that is not there *)
| IsADirectoryError      (* [torch.load] of a directory *)
| UnpicklingError.       (* [torch.load] of a file that is no pickle *)

Inductive result (A : Type) : Type :=
| Ok (a : A)
| Raise (e : exn).
Arguments Ok {A} a.
Arguments Raise {A} e.

Definition rbind {A B} (r : result A) (k : A -> result B) : result B :=
  match r with
  | Ok a => k a
  | Raise e => Raise e
  end.

(** ** binary64 *)

Module F64.

Definition prec : Z := 53.
Definition emax : Z := 1024.

Definition mul : spec_float -> spec_float -> spec_float := SFmul prec emax.
Definition div : spec_float -> spec_float -> spec_float := SFdiv prec emax.
Definition valid : spec_float -> bool := valid_binary prec emax.

Definition is_zero (x : spec_float) : bool :=
  match x with S754_zero _ => true | _ => false end.

(** [0.0 < x] *)
Definition is_positive (x : spec_float) : bool := SFltb (S754_zero false) x.

(** A finite number with a full 53-bit significand. *)
Definition normal (x : spec_float) : bool :=
  match x with
  | S754_finite _ m _ => Zpos (digits2_pos m) =? prec
  | _ => false
  end.

Definition zero : spec_float := S754_zero false.
Definition one : spec_float := S754_finite false 4503599627370496 (-52).
Definition two : spec_float := S754_finite false 4503599627370496 (-51).
Definition half : spec_float := S754_finite false 4503599627370496 (-53).
(** The doubles nearest to 0.1 and 0.01, the defaults of [--lr] and [--clip],
    and to 0.05 and 0.025. *)
Definition c0_1 : spec_float := S754_finite false 7205759403792794 (-56).
Definition c0_01 : spec_float := S754_finite false 5764607523034235 (-59).
Definition c0_05 : spec_float := S754_finite false 7205759403792794 (-57).
Definition c0_025 : spec_float := S754_finite false 7205759403792794 (-58).
(** [1e-4], the default of [--weight-decay], and [0.9], of [--momentum]. *)
Definition c1em4 : spec_float := S754_finite false 7378697629483821 (-66).
Definition c0_9 : spec_float := S754_finite false 8106479329266893 (-53).

(** The rational a float stands for (0 for the infinities and NaN). *)
Definition to_Q (x : spec_float) : Q :=
  match x with
  | S754_finite s m e =>
      let v := (inject_Z (Zpos m) * Qpower 2 e)%Q in
      if s then (- v)%Q else v
  | _ => 0%Q
  end.

(** The same significand one binade down or up. *)
Definition halve (x : spec_float) : spec_float :=
  match x with
  | S754_finite s m e => S754_finite s m (e - 1)
  | _ => x
  end.

End F64.

(** ** Python arithmetic used by [main.py] *)

(** [a // b] on [int]: floor division, [ZeroDivisionError] on [b = 0]. *)
Definition py_floordiv (a b : Z) : result Z :=
  if b =? 0 then Raise ZeroDivisionError else Ok (a / b).

(** [a % b] on [int]. *)
Definition py_mod (a b : Z) : result Z :=
  if b =? 0 then Raise ZeroDivisionError else Ok (a mod b).

(** [float(q)] raises when [q] rounds to a magnitude of [2^1024] or more. *)
Definition int_too_large_for_float (q : Z) : bool :=
  2 ^ 1024 - 2 ^ 970 <=? Z.abs q.

(** [0.5 ** q] for an [int] [q]: the exponent is first converted to a float,
    then C's [pow] is called; [2^-q] is a double for [-1023 <= q <= 1074]
    (subnormal from 1023 on), rounds to [0.0] above, and is out of range
    (errno [ERANGE], which Python turns into [OverflowError]) below. *)
Definition py_pow_half (q : Z) : result spec_float :=
  if int_too_large_for_float q then Raise OverflowError
  else if q <=? -1024 then Raise OverflowError
  else if q <=? 1022 then Ok (S754_finite false 4503599627370496 (-52 - q))
  else if q <=? 1074 then Ok (S754_finite false (Z.to_pos (2 ^ (1074 - q))) (-1074))
  else Ok (S754_zero false).

(** [x * y] on floats never raises. *)
Definition py_fmul (x y : spec_float) : spec_float := F64.mul x y.

(** [x / y] on floats: [ZeroDivisionError] when [y] is [0.0] or [-0.0]. *)
Definition py_fdiv (x y : spec_float) : result spec_float :=
  if F64.is_zero y then Raise ZeroDivisionError else Ok (F64.div x y).

(** ** Command-line options: the global [opt] *)

Record options : Type := {
  batchSize : Z;
  nEpochs : Z;
  lr : spec_float;
  step : Z;
  cuda : bool;
  resume : string;
  start_epoch : Z;
  clip : spec_float;
  threads : Z;
  momentum : spec_float;
  weight_decay : spec_float;
  pretrained : string;
  seed : option Z
}.

(** argparse's defaults. *)
Definition default_options : options := {|
  batchSize := 128; nEpochs := 50; lr := F64.c0_1; step := 5; cuda := false;
  resume := ""; start_epoch := 1; clip := F64.c0_01; threads := 1;
  momentum := F64.c0_9; weight_decay := F64.c1em4; pretrained := "";
  seed := None
|}.

Definition set_seed (o : options) (s : Z) : options := {|
  batchSize := batchSize o; nEpochs := nEpochs o; lr := lr o; step := step o;
  cuda := cuda o; resume := resume o; start_epoch := start_epoch o;
  clip := clip o; threads := threads o; momentum := momentum o;
  weight_decay := weight_decay o; pretrained := pretrained o;
  seed := Some s
|}.

Definition set_start_epoch (o : options) (e : Z) : options := {|
  batchSize := batchSize o; nEpochs := nEpochs o; lr := lr o; step := step o;
  cuda := cuda o; resume := resume o; start_epoch := e;
  clip := clip o; threads := threads o; momentum := momentum o;
  weight_decay := weight_decay o; pretrained := pretrained o;
  seed := seed o
|}.

Definition set_nEpochs (o : options) (n : Z) : options := {|
  batchSize := batchSize o; nEpochs := n; lr := lr o; step := step o;
  cuda := cuda o; resume := resume o; start_epoch := start_epoch o;
  clip := clip o; threads := threads o; momentum := momentum o;
  weight_decay := weight_decay o; pretrained := pretrained o;
  seed := seed o
|}.

Definition set_resume (o : options) (p : string) : options := {|
  batchSize := batchSize o; nEpochs := nEpochs o; lr := lr o; step := step o;
  cuda := cuda o; resume := p; start_epoch := start_epoch o;
  clip := clip o; threads := threads o; momentum := momentum o;
  weight_decay := weight_decay o; pretrained := pretrained o;
  seed := seed o
|}.

Definition set_step (o : options) (n : Z) : options := {|
  batchSize := batchSize o; nEpochs := nEpochs o; lr := lr o; step := n;
  cuda := cuda o; resume := resume o; start_epoch := start_epoch o;
  clip := clip o; threads := threads o; momentum := momentum o;
  weight_decay := weight_decay o; pretrained := pretrained o;
  seed := seed o
|}.

(** ** The learning-rate schedule *)

(** [lr = opt.lr * (0.5 ** (epoch // opt.step))]; the [optimizer] argument
    of the source is not used by the body. *)
Definition adjust_learning_rate (opt : options) (epoch : Z) : result spec_float :=
  rbind (py_floordiv epoch (step opt)) (fun q =>
  rbind (py_pow_half q) (fun p =>
  Ok (py_fmul (lr opt) p))).

(** The spec's wording of the schedule, [lr0 * 0.5^floor((epoch-1)/S)]:
    the floor of the rational quotient, then the same float product. *)
Definition floor_quot (a b : Z) : Z := Qfloor (inject_Z a / inject_Z b).

Definition schedule_spec (lr0 : spec_float) (S epoch : Z) : result spec_float :=
  rbind (py_pow_half (floor_quot (epoch - 1) S)) (fun p => Ok (py_fmul lr0 p)).

(** ** Checkpoint paths *)

(** ["model/" + "model_epoch_{}.pth".format(epoch)] *)
Definition model_out_path (epoch : Z) : string :=
  "model/" +:+ ("model_epoch_" +:+ pretty epoch +:+ ".pth").

(** [range(a, b)] over [int]. *)
Definition py_range (a b : Z) : list Z :=
  map (fun i => a + Z.of_nat i) (seq 0 (Z.to_nat (b - a))).

(** A [str] is true in a condition when it is not empty. *)
Definition py_truthy (s : string) : bool :=
  match s with EmptyString => false | String _ _ => true end.

(** The optimizer's parameter groups: the dict entries the loop touches. *)
Record param_group : Type := {
  pg_lr : spec_float;
  pg_momentum : spec_float;
  pg_weight_decay : spec_float
}.

(** [param_group["lr"] = lr] *)
Definition set_lr (v : spec_float) (g : param_group) : param_group :=
  {| pg_lr := v; pg_momentum := pg_momentum g; pg_weight_decay := pg_weight_decay g |}.

(** ** A small instance of the collaborators

    Weights, gradients, momenta and batches are integers: the gradient of a
    batch [b] at weights [w] is [w - b], clipping leaves it alone, and the
    update keeps a running sum of gradients as its momentum. *)

Definition toy_forward_backward (w b : Z) : spec_float * Z := (F64.one, w - b).
Definition toy_clip_grad_norm (g : Z) (max_norm : spec_float) : Z := g.
Definition toy_sgd_step (gs : list param_group) (mom w g : Z) : Z * Z :=
  (mom + g, w - (mom + g)).
(** The same without momentum. *)
Definition toy_sgd_plain (gs : list param_group) (mom w g : Z) : Z * Z :=
  (mom, w - g).

Definition toy_orders (k : nat) : list Z := [Z.of_nat k; 7; 11].

Section Orchestrator.

(** *** Collaborators *)

Context {Weights Grads Momenta Batch : Type}.

(** [loss = criterion(model(input), target); optimizer.zero_grad();
    loss.backward()]: the loss and the fresh gradients. *)
Variable forward_backward : Weights -> Batch -> spec_float * Grads.
(** [nn.utils.clip_grad_norm(model.parameters(), clip)] *)
Variable clip_grad_norm : Grads -> spec_float -> Grads.
(** [optimizer.step()]: SGD with momentum and weight decay. *)
Variable sgd_step :
  list param_group -> Momenta -> Weights -> Grads -> Momenta * Weights.
(** The state of a newly built [optim.SGD]: no momentum buffers. *)
Variable no_momenta : Momenta.

Record Model : Type := {
  weights : Weights;      (* state_dict() *)
  training : bool         (* set by model.train() *)
}.

Record Optimizer : Type := {
  param_groups : list param_group;
  momenta : Momenta
}.

(** [DataLoader(..., shuffle=True)]: every pass over the loader yields the
    batches in an order of its own; [order k] is the [k]-th pass. *)
Record DataLoader : Type := {
  order : nat -> list Batch;
  pass : nat
}.

(** *** The world: files, console, and the calls made to collaborators *)

(** The dict [{"epoch": epoch, "model": model}] that [torch.save] pickles. *)
Record checkpoint : Type := {
  ck_epoch : Z;
  ck_model : Model
}.

Inductive node : Type :=
| Dir
| File (pickled : option checkpoint).   (* [None]: a file that is no checkpoint *)

(** Console lines; the text is the format string of the source. *)
Inductive line : Type :=
| LOpt (o : options)                       (* print(opt) *)
| LRandomSeed (s : Z)                      (* "Random Seed: ", opt.seed *)
| LLoadingDatasets                         (* "===> Loading datasets" *)
| LBuildingModel                           (* "===> Building model" *)
| LSettingGPU                              (* "===> Setting GPU" *)
| LLoadingCheckpoint (p : string)          (* "===> loading checkpoint: {}" *)
| LNoCheckpointFound (p : string)          (* "===> no checkpoint found at {}" *)
| LLoadModel (p : string)                  (* "===> load model {}" *)
| LNoModelFound (p : string)               (* "===> no model found at {}" *)
| LSettingOptimizer                        (* "===> Setting Optimizer" *)
| LTraining                                (* "===> Training" *)
| LEpochLr (epoch : Z) (v : spec_float)    (* "Epoch={}, lr={}" *)
| LProgress (epoch iteration total : Z) (loss : spec_float)
                                           (* "===> {} Epoch[{}]({}/{}): Loss: {:.10f}" *)
| LCheckpointSaved (p : string).           (* "Checkpoint saved to {}" *)

Inductive call : Type :=
| CClipGradNorm (g : Grads) (max_norm : spec_float)
| CStep (groups : list param_group) (g : Grads).

Record world : Type := {
  fs : gmap string node;
  stdout : list line;
  calls : list call
}.

(** *** Computations: a world in, an outcome and a world out *)

Definition M (A : Type) : Type := world -> result A * world.

Definition ret {A} (a : A) : M A := fun w => (Ok a, w).

Definition bind {A B} (m : M A) (k : A -> M B) : M B :=
  fun w =>
    match m w with
    | (Ok a, w') => k a w'
    | (Raise e, w') => (Raise e, w')
    end.

Definition raise {A} (e : exn) : M A := fun w => (Raise e, w).

Definition lift {A} (r : result A) : M A := fun w => (r, w).

Notation "'do' x <- m ; k" := (bind m (fun x => k))
  (at level 10, x pattern, m at level 100, k at level 200).
Notation "m >>> k" := (bind m (fun _ => k))
  (at level 62, right associativity, only parsing).

Definition print (l : line) : M unit :=
  fun w => (Ok tt, {| fs := fs w; stdout := stdout w ++ [l]; calls := calls w |}).

Definition record_call (c : call) : M unit :=
  fun w => (Ok tt, {| fs := fs w; stdout := stdout w; calls := calls w ++ [c] |}).

Definition os_path_isfile (p : string) : M bool :=
  fun w => (Ok match fs w !! p with Some (File _) => true | _ => false end, w).

Definition os_path_exists (p : string) : M bool :=
  fun w => (Ok match fs w !! p with Some _ => true | None => false end, w).

Definition write_node (p : string) (n : node) : M unit :=
  fun w => (Ok tt, {| fs := <[p := n]> (fs w); stdout := stdout w; calls := calls w |}).

(** [os.makedirs(p)]; the source calls it only when [p] does not exist. *)
Definition os_makedirs (p : string) : M unit := write_node p Dir.

(** [torch.save(state, p)]; the write itself is taken to succeed. *)
Definition torch_save (state : checkpoint) (p : string) : M unit :=
  write_node p (File (Some state)).

Definition torch_load (p : string) : M checkpoint :=
  fun w =>
    match fs w !! p with
    | None => (Raise FileNotFoundError, w)
    | Some Dir => (Raise IsADirectoryError, w)
    | Some (File None) => (Raise UnpicklingError, w)
    | Some (File (Some ck)) => (Ok ck, w)
    end.

(** [model.load_state_dict(sd)] *)
Definition load_state_dict (model : Model) (sd : Weights) : Model :=
  {| weights := sd; training := training model |}.

(** [model.train()] *)
Definition model_train (model : Model) : Model :=
  {| weights := weights model; training := true |}.

(** [optim.SGD(model.parameters(), lr=opt.lr, momentum=opt.momentum,
    weight_decay=opt.weight_decay)] *)
Definition SGD (opt : options) : Optimizer :=
  {| param_groups :=
       [ {| pg_lr := lr opt; pg_momentum := momentum opt;
            pg_weight_decay := weight_decay opt |} ];
     momenta := no_momenta |}.

(** [for batch in training_data_loader] starts a new pass. *)
Definition iterate (loader : DataLoader) : list Batch * DataLoader :=
  (order loader (pass loader),
   {| order := order loader; pass := S (pass loader) |}).

(** *** [save_checkpoint] *)

Definition save_checkpoint (model : Model) (epoch : Z) : M unit :=
  let path := model_out_path epoch in
  let state := {| ck_epoch := epoch; ck_model := model |} in
  do present <- os_path_exists "model/";
  (if negb present then os_makedirs "model/" else ret tt) >>>
  torch_save state path >>>
  print (LCheckpointSaved path).

(** *** [train] *)

(** The first three statements of [train]: the learning-rate policy. *)
Definition lr_policy (opt : options) (optimizer : Optimizer) (epoch : Z)
  : result (spec_float * Optimizer) :=
  rbind (adjust_learning_rate opt (epoch - 1)) (fun v =>
  Ok (v, {| param_groups := map (set_lr v) (param_groups optimizer);
            momenta := momenta optimizer |})).

(** The body of the batch loop. *)
Definition batch_body (opt : options) (v : spec_float) (epoch total : Z)
    (iteration : Z) (batch : Batch) (st : Optimizer * Model)
  : M (Optimizer * Model) :=
  let '(optimizer, model) := st in
  let '(loss, g) := forward_backward (weights model) batch in
  do threshold <- lift (py_fdiv (clip opt) v);
  record_call (CClipGradNorm g threshold) >>>
  let g' := clip_grad_norm g threshold in
  record_call (CStep (param_groups optimizer) g') >>>
  let '(mom', w') :=
    sgd_step (param_groups optimizer) (momenta optimizer) (weights model) g' in
  let st' := ({| param_groups := param_groups optimizer; momenta := mom' |},
              {| weights := w'; training := training model |}) in
  if iteration mod 100 =? 0
  then print (LProgress epoch iteration total loss) >>> ret st'
  else ret st'.

(** [for iteration, batch in enumerate(batches, iteration)] *)
Fixpoint for_batches (body : Z -> Batch -> Optimizer * Model -> M (Optimizer * Model))
    (iteration : Z) (batches : list Batch) (st : Optimizer * Model)
  : M (Optimizer * Model) :=
  match batches with
  | [] => ret st
  | batch :: rest =>
      do st' <- body iteration batch st;
      for_batches body (iteration + 1) rest st'
  end.

Definition train (opt : options) (loader : DataLoader) (optimizer : Optimizer)
    (model : Model) (epoch : Z) : M (DataLoader * Optimizer * Model) :=
  do (v, optimizer) <- lift (lr_policy opt optimizer epoch);
  do g0 <- lift (match param_groups optimizer with
                 | [] => Raise IndexError
                 | g :: _ => Ok g
                 end);
  print (LEpochLr epoch (pg_lr g0)) >>>
  let model := model_train model in
  let '(batches, loader) := iterate loader in
  do st <- for_batches
             (batch_body opt v epoch (Z.of_nat (length batches))) 1 batches
             (optimizer, model);
  ret (loader, fst st, snd st).

(** *** [main] *)

(** [for epoch in range(...): train(...); save_checkpoint(model, epoch)] *)
Fixpoint epochs_loop (opt : options) (epochs : list Z)
    (st : DataLoader * Optimizer * Model) : M (DataLoader * Optimizer * Model) :=
  match epochs with
  | [] => ret st
  | epoch :: rest =>
      let '(loader, optimizer, model) := st in
      do st' <- train opt loader optimizer model epoch;
      save_checkpoint (snd st') epoch >>>
      epochs_loop opt rest st'
  end.

(** [if opt.resume: ...] *)
Definition resume_block (opt : options) (model : Model) : M (options * Model) :=
  if py_truthy (resume opt) then
    do found <- os_path_isfile (resume opt);
    if found then
      print (LLoadingCheckpoint (resume opt)) >>>
      do checkpoint <- torch_load (resume opt);
      ret (set_start_epoch opt (ck_epoch checkpoint + 1),
           load_state_dict model (weights (ck_model checkpoint)))
    else
      print (LNoCheckpointFound (resume opt)) >>> ret (opt, model)
  else ret (opt, model).

(** [if opt.pretrained: ...] *)
Definition pretrained_block (opt : options) (model : Model) : M Model :=
  if py_truthy (pretrained opt) then
    do found <- os_path_isfile (pretrained opt);
    if found then
      print (LLoadModel (pretrained opt)) >>>
      do ws <- torch_load (pretrained opt);
      ret (load_state_dict model (weights (ck_model ws)))
    else
      print (LNoModelFound (pretrained opt)) >>> ret model
  else ret model.

(** What a run leaves behind in its variables. *)
Record final : Type := {
  f_opt : options;
  f_loader : DataLoader;
  f_optimizer : Optimizer;
  f_model : Model
}.

(** The training loop of [main], from the state the bootstrap leaves. *)
Definition training_loop (opt : options) (loader : DataLoader) (model : Model)
  : M final :=
  print LSettingOptimizer >>>
  let optimizer := SGD opt in
  print LTraining >>>
  do st <- epochs_loop opt (py_range (start_epoch opt) (nEpochs opt + 1))
             (loader, optimizer, model);
  ret {| f_opt := opt; f_loader := fst (fst st);
         f_optimizer := snd (fst st); f_model := snd st |}.

(** [main()], given the parsed options and what the environment supplies:
    whether CUDA is there, the integer [random.randint(1, 10000)] draws,
    the weights of a newly built [DRRN()], and the loader's orders. *)
Definition main (opt : options) (cuda_available : bool) (drawn : Z)
    (fresh : Weights) (orders : nat -> list Batch) : M final :=
  print (LOpt opt) >>>
  if cuda opt && negb cuda_available then raise NoGPUFound else
  let opt := set_seed opt drawn in
  print (LRandomSeed drawn) >>>
  print LLoadingDatasets >>>
  let training_data_loader := {| order := orders; pass := 0 |} in
  print LBuildingModel >>>
  let model := {| weights := fresh; training := true |} in
  print LSettingGPU >>>
  do (opt, model) <- resume_block opt model;
  do model <- pretrained_block opt model;
  training_loop opt training_data_loader model.

(** *** The loops unrolled: what a pass and a run compute

    The same statements as [batch_body], [train] and [epochs_loop], with
    the new state, the calls and the printed lines given separately. *)

Definition batch_state (threshold : spec_float) (st : Optimizer * Model)
    (batch : Batch) : Optimizer * Model :=
  let '(optimizer, model) := st in
  let '(loss, g) := forward_backward (weights model) batch in
  let '(mom', w') :=
    sgd_step (param_groups optimizer) (momenta optimizer) (weights model)
      (clip_grad_norm g threshold) in
  ({| param_groups := param_groups optimizer; momenta := mom' |},
   {| weights := w'; training := training model |}).

Definition batch_calls (threshold : spec_float) (st : Optimizer * Model)
    (batch : Batch) : list call :=
  let g := snd (forward_backward (weights (snd st)) batch) in
  [ CClipGradNorm g threshold;
    CStep (param_groups (fst st)) (clip_grad_norm g threshold) ].

Definition batch_lines (epoch total iteration : Z) (st : Optimizer * Model)
    (batch : Batch) : list line :=
  if iteration mod 100 =? 0
  then [ LProgress epoch iteration total
           (fst (forward_backward (weights (snd st)) batch)) ]
  else [].

Definition pass_state (threshold : spec_float) (batches : list Batch)
    (st : Optimizer * Model) : Optimizer * Model :=
  fold_left (batch_state threshold) batches st.

Fixpoint pass_calls (threshold : spec_float) (batches : list Batch)
    (st : Optimizer * Model) : list call :=
  match batches with
  | [] => []
  | batch :: rest =>
      batch_calls threshold st batch
      ++ pass_calls threshold rest (batch_state threshold st batch)
  end.

Fixpoint pass_lines (threshold : spec_float) (epoch total iteration : Z)
    (batches : list Batch) (st : Optimizer * Model) : list line :=
  match batches with
  | [] => []
  | batch :: rest =>
      batch_lines epoch total iteration st batch
      ++ pass_lines threshold epoch total (iteration + 1) rest
           (batch_state threshold st batch)
  end.

(** The threshold [opt.clip / lr] of an epoch whose rate is [v]; the
    [NaN] stands in where the division raises. *)
Definition threshold_of (opt : options) (v : spec_float) : spec_float :=
  match py_fdiv (clip opt) v with
  | Ok t => t
  | Raise _ => S754_nan
  end.

(** An epoch goes through when its rate can be computed and, if there is
    a batch at all, the rate is not zero. *)
Definition epoch_ok (opt : options) (epoch : Z) (batches : list Batch) : bool :=
  match adjust_learning_rate opt (epoch - 1) with
  | Ok v => match batches with [] => true | _ :: _ => negb (F64.is_zero v) end
  | Raise _ => false
  end.

(** The rate of an epoch; [NaN] stands in where computing it raises. *)
Definition rate_of (opt : options) (epoch : Z) : spec_float :=
  match adjust_learning_rate opt (epoch - 1) with
  | Ok v => v
  | Raise _ => S754_nan
  end.

Definition with_rate (v : spec_float) (optimizer : Optimizer) : Optimizer :=
  {| param_groups := map (set_lr v) (param_groups optimizer);
     momenta := momenta optimizer |}.

Definition epoch_state (opt : options) (epoch : Z) (batches : list Batch)
    (st : Optimizer * Model) : Optimizer * Model :=
  let v := rate_of opt epoch in
  pass_state (threshold_of opt v) batches
    (with_rate v (fst st), model_train (snd st)).

(** The epochs [epochs] in turn, on the passes [k], [k + 1], ... *)
Fixpoint epochs_state (opt : options) (orders : nat -> list Batch) (k : nat)
    (epochs : list Z) (st : Optimizer * Model) : Optimizer * Model :=
  match epochs with
  | [] => st
  | epoch :: rest =>
      epochs_state opt orders (S k) rest (epoch_state opt epoch (orders k) st)
  end.

Fixpoint epochs_ok (opt : options) (orders : nat -> list Batch) (k : nat)
    (epochs : list Z) : bool :=
  match epochs with
  | [] => true
  | epoch :: rest =>
      epoch_ok opt epoch (orders k) && epochs_ok opt orders (S k) rest
  end.

(** A new optimizer around the same model: what a resumed run starts with. *)
Definition reinit_optimizer (opt : options) (st : Optimizer * Model)
  : Optimizer * Model :=
  (SGD opt, snd st).

(** The iterations a list of console lines reports progress for. *)
Definition logged_iterations (ls : list line) : list Z :=
  flat_map (fun l => match l with
                     | LProgress _ i _ _ => [i]
                     | _ => []
                     end) ls.

(** The optimizer's update of the weights does not look at the momenta. *)
Definition momentum_free : Prop :=
  forall gs m1 m2 w g, snd (sgd_step gs m1 w g) = snd (sgd_step gs m2 w g).


(** *** The world after an epoch, after a save, after a run *)

Definition advance (loader : DataLoader) (n : nat) : DataLoader :=
  {| order := order loader; pass := n + pass loader |}.

Definition epoch_lines (opt : options) (epoch : Z) (batches : list Batch)
    (st : Optimizer * Model) : list line :=
  let v := rate_of opt epoch in
  LEpochLr epoch v
  :: pass_lines (threshold_of opt v) epoch (Z.of_nat (length batches)) 1 batches
       (with_rate v (fst st), model_train (snd st)).

Definition epoch_calls (opt : options) (epoch : Z) (batches : list Batch)
    (st : Optimizer * Model) : list call :=
  let v := rate_of opt epoch in
  pass_calls (threshold_of opt v) batches
    (with_rate v (fst st), model_train (snd st)).

Definition after_train (opt : options) (epoch : Z) (batches : list Batch)
    (st : Optimizer * Model) (w : world) : world :=
  {| fs := fs w;
     stdout := stdout w ++ epoch_lines opt epoch batches st;
     calls := calls w ++ epoch_calls opt epoch batches st |}.

Definition after_save (model : Model) (epoch : Z) (w : world) : world :=
  {| fs := <[model_out_path epoch :=
               File (Some {| ck_epoch := epoch; ck_model := model |})]>
             (match fs w !! "model/" with
              | Some _ => fs w
              | None => <["model/" := Dir]> (fs w)
              end);
     stdout := stdout w ++ [LCheckpointSaved (model_out_path epoch)];
     calls := calls w |}.

Fixpoint after_epochs (opt : options) (orders : nat -> list Batch) (k : nat)
    (epochs : list Z) (st : Optimizer * Model) (w : world) : world :=
  match epochs with
  | [] => w
  | epoch :: rest =>
      let st' := epoch_state opt epoch (orders k) st in
      after_epochs opt orders (S k) rest st'
        (after_save (snd st') epoch (after_train opt epoch (orders k) st w))
  end.

(** The world with more lines on the console. *)
Definition say (ls : list line) (w : world) : world :=
  {| fs := fs w; stdout := stdout w ++ ls; calls := calls w |}.

(** What [main] prints before it looks at [opt.resume]. *)
Definition banner (opt : options) (drawn : Z) : list line :=
  [LOpt opt; LRandomSeed drawn; LLoadingDatasets; LBuildingModel; LSettingGPU].

(** The model [main] builds. *)
Definition new_model (fresh : Weights) : Model :=
  {| weights := fresh; training := true |}.

(** The loader [main] builds. *)
Definition new_loader (orders : nat -> list Batch) : DataLoader :=
  {| order := orders; pass := 0 |}.

(** The notices [main] prints for paths that were given and are no file. *)
Definition not_found_notices (opt : options) : list line :=
  (if py_truthy (resume opt) then [LNoCheckpointFound (resume opt)] else [])
  ++ (if py_truthy (pretrained opt) then [LNoModelFound (pretrained opt)] else []).

(** The iterations of a pass over [n] batches that are multiples of 100. *)
Definition hundredths (n : nat) : list Z :=
  List.filter (fun i => i mod 100 =? 0) (map Z.of_nat (seq 1 n)).

(** The thresholds passed to [clip_grad_norm], in the order of the calls. *)
Definition clip_thresholds (cs : list call) : list spec_float :=
  flat_map (fun c => match c with
                     | CClipGradNorm _ t => [t]
                     | CStep _ _ => []
                     end) cs.

(** The rates the optimizer had in its groups at each [step()]. *)
Definition step_rates (cs : list call) : list (list spec_float) :=
  flat_map (fun c => match c with
                     | CClipGradNorm _ _ => []
                     | CStep gs _ => [map pg_lr gs]
                     end) cs.

(** [main] from [opt.resume] on. *)
Definition load_and_train (opt : options) (loader : DataLoader) (model : Model)
  : M final :=
  bind (resume_block opt model) (fun om =>
  bind (pretrained_block (fst om) (snd om)) (fun model =>
  training_loop (fst om) loader model)).

(** *** Two runs that differ in the seed drawn *)

Definition reseed (d : Z) (r : final) : final :=
  {| f_opt := set_seed (f_opt r) d; f_loader := f_loader r;
     f_optimizer := f_optimizer r; f_model := f_model r |}.

Definition unseed_line (l : line) : line :=
  match l with
  | LRandomSeed _ => LRandomSeed 0
  | _ => l
  end.

(** The same files, the same calls, and the same console but for the
    numbers in the "Random Seed" lines. *)
Definition same_but_seed (w1 w2 : world) : Prop :=
  fs w1 = fs w2 /\ calls w1 = calls w2
  /\ map unseed_line (stdout w1) = map unseed_line (stdout w2).

(** A computation that cannot tell such worlds apart. *)
Definition respects {A} (c : M A) : Prop :=
  forall w1 w2, same_but_seed w1 w2 ->
    fst (c w1) = fst (c w2) /\ same_but_seed (snd (c w1)) (snd (c w2)).

(** The paths of the "Checkpoint saved to" lines, in the order printed. *)
Definition saved_paths (ls : list line) : list string :=
  flat_map (fun l => match l with
                     | LCheckpointSaved p => [p]
                     | _ => []
                     end) ls.


(** *** What a run adds to the world *)

(** The world with more lines on the console and more calls in the trace,
    and the same files. *)
Definition appended (ls : list line) (cs : list call) (w : world) : world :=
  {| fs := fs w; stdout := stdout w ++ ls; calls := calls w ++ cs |}.

(** From [w] to [w'] nothing is taken away: the console and the trace are
    extended, a path that is there stays there, a path that is not named
    like a checkpoint keeps what it holds, and no path appears but
    checkpoints and ["model/"]. *)
Definition only_adds (w w' : world) : Prop :=
  (exists ls, stdout w' = stdout w ++ ls)
  /\ (exists cs, calls w' = calls w ++ cs)
  /\ (forall p n, fs w !! p = Some n -> (forall e, p <> model_out_path e) ->
                  fs w' !! p = Some n)
  /\ (forall p, fs w !! p = None -> (forall e, p <> model_out_path e) ->
                p <> "model/" -> fs w' !! p = None)
  /\ (forall p, is_Some (fs w !! p) -> is_Some (fs w' !! p)).

(** From [w] to [w'] every "Checkpoint saved to" line that was printed
    names a file that holds a checkpoint of the epoch in its name, and the
    checkpoints that were there are still checkpoints of their epoch. *)
Definition saves_kept (w w' : world) : Prop :=
  (exists ls,
     stdout w' = stdout w ++ ls
     /\ forall p, In p (saved_paths ls) ->
          exists e m,
            p = model_out_path e
            /\ fs w' !! p = Some (File (Some {| ck_epoch := e; ck_model := m |})))
  /\ (forall e m,
        fs w !! model_out_path e
        = Some (File (Some {| ck_epoch := e; ck_model := m |})) ->
        exists m',
          fs w' !! model_out_path e
          = Some (File (Some {| ck_epoch := e; ck_model := m' |}))).

Definition empty_world : world := {| fs := ∅; stdout := []; calls := [] |}.

(** * Properties *)

(** ** Integer and binary64 arithmetic *)

Lemma floor_quot_div (a b : Z) : b <> 0 -> floor_quot a b = a / b.
Proof.
  intros Hb. unfold floor_quot, Qdiv, Qinv, inject_Z, Qmult, Qfloor; simpl.
  destruct b as [|p|p]; simpl; [congruence| |].
  - now rewrite Z.mul_1_r.
  - replace (a * Z.neg 1) with (- a) by lia.
    replace (Z.pos (1 * p)) with (- Z.neg p) by lia.
    apply Z.div_opp_opp. lia.
Qed.

Lemma py_floordiv_ok (a b : Z) : b <> 0 -> py_floordiv a b = Ok (floor_quot a b).
Proof.
  intros Hb. unfold py_floordiv.
  destruct (Z.eqb_spec b 0); [contradiction|]. now rewrite floor_quot_div.
Qed.

Lemma fexp_64 (x : Z) : fexp 53 1024 x = Z.max (x - 53) (-1074).
Proof. reflexivity. Qed.

Lemma Zpos_iter_xO (m p : positive) :
  Z.pos (Pos.iter xO m p) = Z.pos m * 2 ^ Z.pos p.
Proof.
  induction p as [|p IH] using Pos.peano_ind.
  - simpl. lia.
  - rewrite Pos.iter_succ, Pos2Z.inj_xO, IH, Pos2Z.inj_succ, Z.pow_succ_r; lia.
Qed.

Lemma digits2_iter_xO (m p : positive) :
  digits2_pos (Pos.iter xO m p) = (digits2_pos m + p)%positive.
Proof.
  induction p as [|p IH] using Pos.peano_ind.
  - simpl. lia.
  - rewrite Pos.iter_succ. simpl. rewrite IH. lia.
Qed.

(** Shifting out the zeros that [xO] put in is exact. *)
Lemma shr_iter_xO (p m : positive) :
  SpecFloat.iter_pos shr_1 p {| shr_m := Z.pos (Pos.iter xO m p); shr_r := false; shr_s := false |}
  = {| shr_m := Z.pos m; shr_r := false; shr_s := false |}.
Proof.
  revert m. induction p as [p IH|p IH|]; intros m; simpl.
  - rewrite IH. apply IH.
  - rewrite IH. apply IH.
  - reflexivity.
Qed.

Lemma bounded_64 (m : positive) (e : Z) :
  bounded 53 1024 m e = true ->
  Z.max (Z.pos (digits2_pos m) + e - 53) (-1074) = e /\ e <= 971.
Proof.
  unfold bounded, canonical_mantissa. rewrite fexp_64.
  intros [H1 H2]%andb_prop. apply Z.eqb_eq in H1. apply Z.leb_le in H2.
  change (1024 - 53) with 971 in H2. auto.
Qed.

(** Rounding [m * 2^n] at exponent [e - n] gives back [m] at [e]. *)
Lemma binary_round_aux_pow2 (s : bool) (m : positive) (e n : Z) :
  bounded 53 1024 m e = true -> 0 <= n ->
  binary_round_aux 53 1024 s (Z.pos m * 2 ^ n) (e - n) loc_Exact
  = S754_finite s m e.
Proof.
  intros [Hc He]%bounded_64 Hn.
  assert (Hsnd : shr_fexp 53 1024 (Z.pos m) e loc_Exact
                 = ({| shr_m := Z.pos m; shr_r := false; shr_s := false |}, e)).
  { unfold shr_fexp. rewrite fexp_64. cbn [Zdigits2]. rewrite Hc, Z.sub_diag.
    reflexivity. }
  assert (Hfst : shr_fexp 53 1024 (Z.pos m * 2 ^ n) (e - n) loc_Exact
                 = ({| shr_m := Z.pos m; shr_r := false; shr_s := false |}, e)).
  { destruct n as [|p|p]; [| |lia].
    - rewrite Z.mul_1_r, Z.sub_0_r. exact Hsnd.
    - rewrite <- Zpos_iter_xO. unfold shr_fexp. rewrite fexp_64.
      cbn [Zdigits2]. rewrite digits2_iter_xO, Pos2Z.inj_add.
      replace (Z.pos (digits2_pos m) + Z.pos p + (e - Z.pos p) - 53)
        with (Z.pos (digits2_pos m) + e - 53) by lia.
      rewrite Hc. replace (e - (e - Z.pos p)) with (Z.pos p) by lia.
      cbn [shr shr_record_of_loc]. rewrite shr_iter_xO. f_equal. lia. }
  unfold binary_round_aux. rewrite Hfst. cbn [shr_m loc_of_shr_record round_nearest_even].
  rewrite Hsnd. cbn [shr_m].
  change (1024 - 53) with 971. destruct (Z.leb_spec e 971); [reflexivity|lia].
Qed.

(** The shape of [0.5 ** q] where it is a non-zero double. *)
Lemma py_pow_half_range (q : Z) :
  -1023 <= q <= 1074 ->
  exists (my : positive) (n : Z),
    py_pow_half q = Ok (S754_finite false my (- q - n))
    /\ Z.pos my = 2 ^ n /\ 0 <= n.
Proof.
  intros Hq. unfold py_pow_half.
  assert (Hsmall : int_too_large_for_float q = false).
  { unfold int_too_large_for_float. apply Z.leb_gt.
    assert (2 ^ 11 <= 2 ^ 1024 - 2 ^ 970).
    { change (2 ^ 1024) with (2 ^ 970 * 2 ^ 54).
      assert (1 <= 2 ^ 970) by (apply Z.lt_pred_le, Z.pow_pos_nonneg; lia).
      assert (2 ^ 11 = 2048) by reflexivity. assert (2 ^ 54 = 18014398509481984) by reflexivity.
      nia. }
    assert (2 ^ 11 = 2048) by reflexivity. lia. }
  rewrite Hsmall.
  destruct (Z.leb_spec q (-1024)); [lia|].
  destruct (Z.leb_spec q 1022).
  - exists 4503599627370496%positive, 52. repeat split; [|lia].
    f_equal. f_equal. lia.
  - destruct (Z.leb_spec q 1074); [|lia].
    exists (Z.to_pos (2 ^ (1074 - q))), (1074 - q). repeat split; [| |lia].
    + f_equal. f_equal. lia.
    + apply Z2Pos.id, Z.pow_pos_nonneg; lia.
Qed.

(** Multiplying by [0.5 ** q] only moves the exponent, as long as the
    result is still a double with the same significand. *)
Lemma mul_pow_half_exact (s : bool) (m : positive) (e q : Z) (p : spec_float) :
  -1023 <= q <= 1074 -> py_pow_half q = Ok p ->
  bounded 53 1024 m (e - q) = true ->
  py_fmul (S754_finite s m e) p = S754_finite s m (e - q).
Proof.
  intros Hq Hp Hb.
  destruct (py_pow_half_range q Hq) as (my & n & Hp' & Hmy & Hn).
  rewrite Hp' in Hp. injection Hp as <-.
  unfold py_fmul, F64.mul, SFmul. rewrite xorb_false_r.
  rewrite Pos2Z.inj_mul, Hmy.
  replace (e + (- q - n)) with ((e - q) - n) by lia.
  now apply binary_round_aux_pow2.
Qed.

(** [x * 1.0] is [x] for every double. *)
Lemma mul_one_valid (x : spec_float) :
  F64.valid x = true -> py_fmul x F64.one = x.
Proof.
  destruct x as [s|s| |s m e]; intros Hv; try reflexivity.
  - unfold py_fmul, F64.mul; simpl. now rewrite xorb_false_r.
  - unfold py_fmul, F64.mul; simpl. now rewrite xorb_false_r.
  - replace (S754_finite s m e) with (S754_finite s m (e - 0)) at 2
      by (f_equal; lia).
    apply mul_pow_half_exact; [lia|reflexivity|].
    now rewrite Z.sub_0_r.
Qed.

(** ** Running the loops *)

Lemma world_eta (w : world) :
  {| fs := fs w; stdout := stdout w; calls := calls w |} = w.
Proof. now destruct w. Qed.

Lemma batch_body_run opt v thr epoch total iteration batch st w :
  py_fdiv (clip opt) v = Ok thr ->
  batch_body opt v epoch total iteration batch st w
  = (Ok (batch_state thr st batch),
     {| fs := fs w;
        stdout := stdout w ++ batch_lines epoch total iteration st batch;
        calls := calls w ++ batch_calls thr st batch |}).
Proof.
  intros Hdiv. unfold batch_body, batch_state, batch_lines, batch_calls.
  destruct st as [optimizer model]. cbn [fst snd].
  destruct (forward_backward (weights model) batch) as [loss g].
  rewrite Hdiv. unfold bind, lift, record_call. cbn [fst snd fs stdout calls].
  destruct (sgd_step _ _ _ _) as [mom' w'].
  destruct (iteration mod 100 =? 0); unfold bind, print, ret;
    cbn [fs stdout calls]; rewrite ?app_nil_r, <- ?app_assoc; reflexivity.
Qed.

Lemma batch_body_raise opt v e epoch total iteration batch st w :
  py_fdiv (clip opt) v = Raise e ->
  batch_body opt v epoch total iteration batch st w = (Raise e, w).
Proof.
  intros Hdiv. unfold batch_body. destruct st as [optimizer model].
  destruct (forward_backward (weights model) batch) as [loss g].
  rewrite Hdiv. reflexivity.
Qed.

Lemma for_batches_run opt v thr epoch total :
  py_fdiv (clip opt) v = Ok thr ->
  forall batches iteration st w,
    for_batches (batch_body opt v epoch total) iteration batches st w
    = (Ok (pass_state thr batches st),
       {| fs := fs w;
          stdout := stdout w ++ pass_lines thr epoch total iteration batches st;
          calls := calls w ++ pass_calls thr batches st |}).
Proof.
  intros Hdiv. induction batches as [|b rest IH]; intros i st w.
  - cbn. unfold ret. now rewrite !app_nil_r, world_eta.
  - cbn [for_batches pass_lines pass_calls]. unfold pass_state. cbn [fold_left].
    unfold bind at 1. rewrite (batch_body_run _ _ thr) by exact Hdiv.
    rewrite IH. cbn [fs stdout calls]. now rewrite <- !app_assoc.
Qed.

Lemma for_batches_nil body iteration st w :
  for_batches body iteration [] st w = (Ok st, w).
Proof. reflexivity. Qed.

Lemma for_batches_raise opt v e epoch total iteration batch rest st w :
  py_fdiv (clip opt) v = Raise e ->
  for_batches (batch_body opt v epoch total) iteration (batch :: rest) st w
  = (Raise e, w).
Proof.
  intros Hdiv. cbn [for_batches]. unfold bind.
  now rewrite (batch_body_raise _ _ e).
Qed.

Lemma py_fdiv_nonzero x v :
  F64.is_zero v = false -> py_fdiv x v = Ok (F64.div x v).
Proof. intros H. unfold py_fdiv. now rewrite H. Qed.

Lemma py_fdiv_zero x v :
  F64.is_zero v = true -> py_fdiv x v = Raise ZeroDivisionError.
Proof. intros H. unfold py_fdiv. now rewrite H. Qed.

Lemma pass_state_groups thr batches st :
  param_groups (fst (pass_state thr batches st)) = param_groups (fst st).
Proof.
  revert st. unfold pass_state.
  induction batches as [|b rest IH]; intros st; [reflexivity|].
  cbn [fold_left]. rewrite IH. unfold batch_state.
  destruct st as [optimizer model].
  destruct (forward_backward _ _) as [loss g].
  now destruct (sgd_step _ _ _ _).
Qed.

Lemma epoch_state_groups opt epoch batches st :
  param_groups (fst (epoch_state opt epoch batches st))
  = map (set_lr (rate_of opt epoch)) (param_groups (fst st)).
Proof. unfold epoch_state. now rewrite pass_state_groups. Qed.

(** [train], when the epoch goes through. *)
Lemma train_run opt loader optimizer model epoch w :
  epoch_ok opt epoch (order loader (pass loader)) = true ->
  param_groups optimizer <> [] ->
  train opt loader optimizer model epoch w
  = (Ok (advance loader 1,
         fst (epoch_state opt epoch (order loader (pass loader)) (optimizer, model)),
         snd (epoch_state opt epoch (order loader (pass loader)) (optimizer, model))),
     after_train opt epoch (order loader (pass loader)) (optimizer, model) w).
Proof.
  unfold epoch_ok, train, lr_policy, epoch_state, after_train, epoch_lines,
    epoch_calls, rate_of, threshold_of.
  destruct (adjust_learning_rate opt (epoch - 1)) as [v|e]; [|discriminate].
  intros Hok Hgroups. cbn [rbind lift bind fst snd param_groups with_rate].
  destruct (param_groups optimizer) as [|g gs] eqn:Hg; [congruence|].
  cbn [map set_lr]. unfold bind at 1. unfold print at 1. cbn [iterate].
  set (batches := order loader (pass loader)) in *.
  destruct batches as [|b rest] eqn:Hb.
  - cbn. unfold ret, with_rate, advance. now rewrite !app_nil_r, Hg.
  - apply negb_true_iff in Hok. rewrite (py_fdiv_nonzero _ _ Hok).
    unfold bind at 1.
    rewrite (for_batches_run _ _ (F64.div (clip opt) v)) by now apply py_fdiv_nonzero.
    unfold ret, advance, with_rate. cbn [fs stdout calls pg_lr fst snd Nat.add].
    rewrite <- !app_assoc, Hg. reflexivity.
Qed.

(** [train], when computing the rate raises: nothing happens. *)
Lemma train_raise_rate opt loader optimizer model epoch w e :
  adjust_learning_rate opt (epoch - 1) = Raise e ->
  train opt loader optimizer model epoch w = (Raise e, w).
Proof.
  intros H. unfold train, lr_policy. rewrite H. reflexivity.
Qed.

(** [train], when the rate is zero and there is a batch: the division of
    the first batch raises, after the epoch's line was printed. *)
Lemma train_raise_zero opt loader optimizer model epoch w v b rest :
  adjust_learning_rate opt (epoch - 1) = Ok v ->
  F64.is_zero v = true ->
  param_groups optimizer <> [] ->
  order loader (pass loader) = b :: rest ->
  train opt loader optimizer model epoch w
  = (Raise ZeroDivisionError,
     {| fs := fs w; stdout := stdout w ++ [LEpochLr epoch v]; calls := calls w |}).
Proof.
  intros Hv Hz Hg Hb. unfold train, lr_policy. rewrite Hv.
  cbn [rbind lift bind fst snd param_groups].
  destruct (param_groups optimizer) as [|g gs]; [congruence|].
  cbn [map set_lr]. unfold bind at 1. unfold print at 1. cbn [iterate].
  rewrite Hb. unfold bind at 1.
  rewrite (for_batches_raise _ _ ZeroDivisionError) by now apply py_fdiv_zero.
  reflexivity.
Qed.

Lemma save_checkpoint_run model epoch w :
  save_checkpoint model epoch w = (Ok tt, after_save model epoch w).
Proof.
  unfold save_checkpoint, after_save, bind, os_path_exists, os_makedirs,
    torch_save, write_node, print, ret.
  destruct (fs w !! "model/"); reflexivity.
Qed.

Lemma advance_advance loader n m :
  advance (advance loader n) m = advance loader (m + n).
Proof. unfold advance. cbn. f_equal. lia. Qed.

(** The loop over the epochs, when every epoch goes through. *)
Lemma epochs_loop_run opt epochs :
  forall loader optimizer model w,
    epochs_ok opt (order loader) (pass loader) epochs = true ->
    param_groups optimizer <> [] ->
    epochs_loop opt epochs (loader, optimizer, model) w
    = (Ok (advance loader (length epochs),
           fst (epochs_state opt (order loader) (pass loader) epochs (optimizer, model)),
           snd (epochs_state opt (order loader) (pass loader) epochs (optimizer, model))),
       after_epochs opt (order loader) (pass loader) epochs (optimizer, model) w).
Proof.
  induction epochs as [|epoch rest IH]; intros loader optimizer model w Hok Hg.
  - cbn. unfold ret, advance. now destruct loader.
  - cbn [epochs_ok] in Hok. apply andb_prop in Hok as [Hok1 Hok2].
    cbn [epochs_loop epochs_state after_epochs]. unfold bind at 1.
    rewrite train_run by assumption. cbn [snd]. unfold bind at 1.
    rewrite save_checkpoint_run.
    set (st' := epoch_state opt epoch (order loader (pass loader)) (optimizer, model)).
    rewrite (surjective_pairing st') at 1.
    rewrite IH.
    + rewrite advance_advance. cbn [advance order pass length].
      replace (1 + pass loader)%nat with (S (pass loader)) by reflexivity.
      replace (length rest + 1)%nat with (S (length rest)) by lia.
      now rewrite <- !surjective_pairing.
    + exact Hok2.
    + cbn [fst]. unfold st'. rewrite epoch_state_groups. cbn [fst].
      destruct (param_groups optimizer); [congruence|discriminate].
Qed.

(** [0.5 ** q] stands for the rational [(1/2)^q] wherever it is not rounded. *)
Lemma py_pow_half_value (q : Z) :
  -1023 <= q <= 1074 ->
  exists p, py_pow_half q = Ok p /\ (F64.to_Q p == Qpower (1 # 2) q)%Q.
Proof.
  intros Hq. destruct (py_pow_half_range q Hq) as (my & n & Hp & Hmy & Hn).
  eexists; split; [exact Hp|]. unfold F64.to_Q. rewrite Hmy.
  assert (H2 : ~ (2 == 0)%Q) by discriminate.
  rewrite Zpower_Qpower by exact Hn.
  change (inject_Z 2) with 2%Q.
  replace (- q - n) with (- q + - n) by lia.
  rewrite Qpower_plus by exact H2.
  rewrite (Qpower_opp 2 n), (Qpower_opp 2 q).
  change (1 # 2)%Q with (/ 2)%Q. rewrite Qinv_power.
  assert (Hn0 : ~ (2 ^ n == 0)%Q) by now apply Qpower_not_0.
  field. split; [now apply Qpower_not_0|exact Hn0].
Qed.

(** What is needed for [train] to hand back a state. *)
Lemma train_ok_inv opt loader optimizer model epoch w r w' :
  train opt loader optimizer model epoch w = (Ok r, w') ->
  epoch_ok opt epoch (order loader (pass loader)) = true
  /\ param_groups optimizer <> [].
Proof.
  intros Hrun.
  destruct (adjust_learning_rate opt (epoch - 1)) as [v|e] eqn:Hv.
  2:{ rewrite (train_raise_rate _ _ _ _ _ _ e) in Hrun by exact Hv. discriminate. }
  assert (Hg : param_groups optimizer <> []).
  { intros Hnil. unfold train, lr_policy in Hrun. rewrite Hv in Hrun.
    cbn [rbind lift bind param_groups] in Hrun. rewrite Hnil in Hrun.
    cbn in Hrun. discriminate. }
  split; [|exact Hg]. unfold epoch_ok. rewrite Hv.
  destruct (order loader (pass loader)) as [|b rest] eqn:Hb; [reflexivity|].
  destruct (F64.is_zero v) eqn:Hz; [|reflexivity].
  rewrite (train_raise_zero _ _ _ _ _ _ v b rest) in Hrun by assumption.
  discriminate.
Qed.

Lemma Forall_map_set_lr v gs :
  Forall (fun g => pg_lr g = v) (map (set_lr v) gs).
Proof. induction gs; cbn; constructor; auto. Qed.

(** ** C1: the learning-rate schedule *)

Lemma adjust_learning_rate_spec opt epoch :
  step opt <> 0 ->
  adjust_learning_rate opt (epoch - 1) = schedule_spec (lr opt) (step opt) epoch.
Proof.
  intros HS. unfold adjust_learning_rate, schedule_spec.
  now rewrite py_floordiv_ok.
Qed.

(** C1. For every epoch number [epoch >= 1] and decay step [S <> 0], the
    rate [train] applies for that epoch is [lr0 * 0.5^floor((epoch-1)/S)]
    evaluated in binary64: it is what [adjust_learning_rate (epoch - 1)]
    returns, the factor [0.5 ** k] stands for the rational [(1/2)^k] while
    [-1023 <= k <= 1074], every parameter group gets that rate and it is the
    rate printed, whatever the loader, optimizer, model and world (so it
    depends on the options and the epoch alone); where the formula raises,
    so does [train], touching nothing; and epoch 1 uses [lr0] unchanged. *)
Theorem C1_learning_rate_schedule (opt : options) (epoch : Z) :
  1 <= epoch -> step opt <> 0 ->
  let k := floor_quot (epoch - 1) (step opt) in
  adjust_learning_rate opt (epoch - 1) = schedule_spec (lr opt) (step opt) epoch
  /\ (-1023 <= k <= 1074 ->
      exists p, py_pow_half k = Ok p
        /\ (F64.to_Q p == Qpower (1 # 2) k)%Q
        /\ schedule_spec (lr opt) (step opt) epoch = Ok (py_fmul (lr opt) p))
  /\ (forall loader optimizer model w v,
        schedule_spec (lr opt) (step opt) epoch = Ok v ->
        param_groups optimizer <> [] ->
        order loader (pass loader) = [] \/ F64.is_zero v = false ->
        exists loader' optimizer' model' w',
          train opt loader optimizer model epoch w
          = (Ok (loader', optimizer', model'), w')
          /\ Forall (fun g => pg_lr g = v) (param_groups optimizer')
          /\ exists rest, stdout w' = stdout w ++ LEpochLr epoch v :: rest)
  /\ (forall loader optimizer model w e,
        schedule_spec (lr opt) (step opt) epoch = Raise e ->
        train opt loader optimizer model epoch w = (Raise e, w))
  /\ (epoch = 1 -> F64.valid (lr opt) = true ->
      schedule_spec (lr opt) (step opt) epoch = Ok (lr opt)).
Proof.
  intros Hepoch HS k. pose proof (adjust_learning_rate_spec opt epoch HS) as Hspec.
  split; [exact Hspec|]. split; [|split; [|split]].
  - intros Hk. destruct (py_pow_half_value k Hk) as (p & Hp & Hval).
    exists p. repeat split; try assumption.
    unfold schedule_spec. fold k. now rewrite Hp.
  - intros loader optimizer model w v Hv Hg Hb.
    assert (Hok : epoch_ok opt epoch (order loader (pass loader)) = true).
    { unfold epoch_ok. rewrite Hspec, Hv.
      destruct Hb as [-> | ->]; [reflexivity|].
      now destruct (order loader (pass loader)). }
    do 4 eexists. split; [apply train_run; assumption|]. split.
    + rewrite epoch_state_groups. unfold rate_of. rewrite Hspec, Hv.
      apply Forall_map_set_lr.
    + unfold after_train, epoch_lines, rate_of. rewrite Hspec, Hv.
      cbn [stdout]. eexists. reflexivity.
  - intros loader optimizer model w e He. apply train_raise_rate.
    now rewrite Hspec.
  - intros -> Hvalid. unfold schedule_spec.
    rewrite floor_quot_div by exact HS. change (1 - 1) with 0.
    rewrite Z.div_0_l by exact HS.
    change (py_pow_half 0) with (Ok F64.one). cbn [rbind].
    now rewrite mul_one_valid.
Qed.

(** ** The bootstrap of [main] *)

Lemma say_say ls1 ls2 w : say ls2 (say ls1 w) = say (ls1 ++ ls2) w.
Proof. unfold say. cbn. now rewrite app_assoc. Qed.

Lemma print_say l w : print l w = (Ok tt, say [l] w).
Proof. reflexivity. Qed.

Lemma resume_block_none opt model w :
  py_truthy (resume opt) = false ->
  resume_block opt model w = (Ok (opt, model), w).
Proof. intros H. unfold resume_block. now rewrite H. Qed.

Lemma resume_block_missing opt model w :
  py_truthy (resume opt) = true ->
  (forall c, fs w !! resume opt <> Some (File c)) ->
  resume_block opt model w
  = (Ok (opt, model), say [LNoCheckpointFound (resume opt)] w).
Proof.
  intros H Hmiss. unfold resume_block, bind, os_path_isfile. rewrite H.
  destruct (fs w !! resume opt) as [[|c]|] eqn:Hl; try reflexivity.
  now destruct (Hmiss c).
Qed.

Lemma resume_block_found opt model w ck :
  py_truthy (resume opt) = true ->
  fs w !! resume opt = Some (File (Some ck)) ->
  resume_block opt model w
  = (Ok (set_start_epoch opt (ck_epoch ck + 1),
         load_state_dict model (weights (ck_model ck))),
     say [LLoadingCheckpoint (resume opt)] w).
Proof.
  intros H Hl. unfold resume_block, bind, os_path_isfile, torch_load, print.
  rewrite H, Hl. cbn [fs]. now rewrite Hl.
Qed.

Lemma pretrained_block_none opt model w :
  py_truthy (pretrained opt) = false ->
  pretrained_block opt model w = (Ok model, w).
Proof. intros H. unfold pretrained_block. now rewrite H. Qed.

Lemma pretrained_block_missing opt model w :
  py_truthy (pretrained opt) = true ->
  (forall c, fs w !! pretrained opt <> Some (File c)) ->
  pretrained_block opt model w
  = (Ok model, say [LNoModelFound (pretrained opt)] w).
Proof.
  intros H Hmiss. unfold pretrained_block, bind, os_path_isfile. rewrite H.
  destruct (fs w !! pretrained opt) as [[|c]|] eqn:Hl; try reflexivity.
  now destruct (Hmiss c).
Qed.

Lemma pretrained_block_found opt model w ck :
  py_truthy (pretrained opt) = true ->
  fs w !! pretrained opt = Some (File (Some ck)) ->
  pretrained_block opt model w
  = (Ok (load_state_dict model (weights (ck_model ck))),
     say [LLoadModel (pretrained opt)] w).
Proof.
  intros H Hl. unfold pretrained_block, bind, os_path_isfile, torch_load, print.
  rewrite H, Hl. cbn [fs]. now rewrite Hl.
Qed.

(** [main] is its banner, the two optional loads, and the training loop. *)
Lemma main_unfold opt cuda_available drawn fresh orders w :
  cuda opt && negb cuda_available = false ->
  main opt cuda_available drawn fresh orders w
  = bind (resume_block (set_seed opt drawn) (new_model fresh))
      (fun om => bind (pretrained_block (fst om) (snd om))
         (fun model => training_loop (fst om) (new_loader orders) model))
      (say (banner opt drawn) w).
Proof.
  intros Hcuda. unfold main. rewrite Hcuda.
  unfold bind at 1. rewrite print_say.
  unfold bind at 1. rewrite print_say, say_say.
  unfold bind at 1. rewrite print_say, say_say.
  unfold bind at 1. rewrite print_say, say_say.
  unfold bind at 1. rewrite print_say, say_say.
  cbn [app]. fold (banner opt drawn). fold (new_model fresh).
  fold (new_loader orders). unfold bind.
  destruct (resume_block _ _ _) as [[[o m]|e] w1]; reflexivity.
Qed.

Lemma main_no_gpu opt cuda_available drawn fresh orders w :
  cuda opt && negb cuda_available = true ->
  main opt cuda_available drawn fresh orders w
  = (Raise NoGPUFound, say [LOpt opt] w).
Proof.
  intros Hcuda. unfold main. rewrite Hcuda. reflexivity.
Qed.

(** ** C2: a resume path and a pretrained path together *)

(** C2. When both [--resume] and [--pretrained] are given and both name
    checkpoint files, [main] loads the resume checkpoint first and the
    pretrained one on top: training starts at the resumed checkpoint's epoch
    plus one, with the weights of the pretrained file. *)
Theorem C2_resume_then_pretrained
    (opt : options) (cuda_available : bool) (drawn : Z) (fresh : Weights)
    (orders : nat -> list Batch) (w : world) (r p : checkpoint) :
  cuda opt && negb cuda_available = false ->
  py_truthy (resume opt) = true ->
  py_truthy (pretrained opt) = true ->
  fs w !! resume opt = Some (File (Some r)) ->
  fs w !! pretrained opt = Some (File (Some p)) ->
  let opt' := set_start_epoch (set_seed opt drawn) (ck_epoch r + 1) in
  let resumed := load_state_dict (new_model fresh) (weights (ck_model r)) in
  let seeded := load_state_dict resumed (weights (ck_model p)) in
  let w0 := say (banner opt drawn) w in
  let w1 := say [LLoadingCheckpoint (resume opt)] w0 in
  let w2 := say [LLoadModel (pretrained opt)] w1 in
  resume_block (set_seed opt drawn) (new_model fresh) w0 = (Ok (opt', resumed), w1)
  /\ pretrained_block opt' resumed w1 = (Ok seeded, w2)
  /\ main opt cuda_available drawn fresh orders w
     = training_loop opt' (new_loader orders) seeded w2
  /\ start_epoch opt' = ck_epoch r + 1
  /\ weights resumed = weights (ck_model r)
  /\ weights seeded = weights (ck_model p).
Proof.
  intros Hcuda Hr Hp Hfr Hfp opt' resumed seeded w0 w1 w2.
  assert (H1 : resume_block (set_seed opt drawn) (new_model fresh) w0
               = (Ok (opt', resumed), w1)).
  { apply (resume_block_found (set_seed opt drawn) _ w0 r); assumption. }
  assert (H2 : pretrained_block opt' resumed w1 = (Ok seeded, w2)).
  { apply (pretrained_block_found opt' _ w1 p); assumption. }
  repeat split; try assumption.
  rewrite main_unfold by exact Hcuda. fold w0. unfold bind at 1. rewrite H1.
  cbn [fst snd]. unfold bind at 1. now rewrite H2.
Qed.

(** ** C8: paths that name no file *)

(** C8. A resume path that names no file makes [main] print the
    not-found notice and go on with the options and the model as they
    were; so does a pretrained path; and when every path given is missing,
    [main] enters the training loop with the configured start epoch and the
    weights of the newly built model. *)
Theorem C8_missing_paths
    (opt : options) (cuda_available : bool) (drawn : Z) (fresh : Weights)
    (orders : nat -> list Batch) (w : world) :
  cuda opt && negb cuda_available = false ->
  (py_truthy (resume opt) = true -> forall c, fs w !! resume opt <> Some (File c)) ->
  (py_truthy (pretrained opt) = true -> forall c, fs w !! pretrained opt <> Some (File c)) ->
  (forall model,
     py_truthy (resume opt) = true ->
     resume_block opt model w
     = (Ok (opt, model), say [LNoCheckpointFound (resume opt)] w))
  /\ (forall model,
     py_truthy (pretrained opt) = true ->
     pretrained_block opt model w
     = (Ok model, say [LNoModelFound (pretrained opt)] w))
  /\ main opt cuda_available drawn fresh orders w
     = training_loop (set_seed opt drawn) (new_loader orders) (new_model fresh)
         (say (not_found_notices opt) (say (banner opt drawn) w))
  /\ start_epoch (set_seed opt drawn) = start_epoch opt
  /\ weights (new_model fresh) = fresh.
Proof.
  intros Hcuda Hr Hp. split; [|split; [|split; [|split]]]; try reflexivity.
  - intros model Ht. apply resume_block_missing; auto.
  - intros model Ht. apply pretrained_block_missing; auto.
  - rewrite main_unfold by exact Hcuda. unfold not_found_notices.
    set (w0 := say (banner opt drawn) w).
    unfold bind at 1.
    destruct (py_truthy (resume opt)) eqn:Htr.
    + rewrite resume_block_missing by (try exact Htr; apply Hr; reflexivity).
      cbn [fst snd]. unfold bind at 1.
      destruct (py_truthy (pretrained opt)) eqn:Htp.
      * rewrite pretrained_block_missing by (try exact Htp; apply Hp; reflexivity).
        now rewrite say_say.
      * rewrite pretrained_block_none by exact Htp. now rewrite app_nil_r.
    + rewrite resume_block_none by exact Htr.
      cbn [fst snd]. unfold bind at 1.
      destruct (py_truthy (pretrained opt)) eqn:Htp.
      * rewrite pretrained_block_missing by (try exact Htp; apply Hp; reflexivity).
        reflexivity.
      * rewrite pretrained_block_none by exact Htp.
        cbn [app]. unfold say. cbn. rewrite app_nil_r. reflexivity.
Qed.

(** ** C4: checkpoints *)

Lemma string_app_cons a s t : String a s +:+ t = String a (s +:+ t).
Proof. reflexivity. Qed.

Lemma string_length_app s t :
  String.length (s +:+ t) = (String.length s + String.length t)%nat.
Proof.
  induction s as [|a s IH]; [reflexivity|].
  rewrite string_app_cons. cbn [String.length]. now rewrite IH.
Qed.

Lemma string_app_inv_tail s1 s2 t : s1 +:+ t = s2 +:+ t -> s1 = s2.
Proof.
  revert s2. induction s1 as [|a s1 IH]; intros [|b s2] H.
  - reflexivity.
  - apply (f_equal String.length) in H.
    rewrite !string_length_app in H. cbn [String.length] in H. lia.
  - apply (f_equal String.length) in H.
    rewrite !string_length_app in H. cbn [String.length] in H. lia.
  - rewrite !string_app_cons in H. injection H as -> H. f_equal. now apply IH.
Qed.

(** The file name is an injective function of the epoch. *)
Lemma model_out_path_inj e1 e2 : model_out_path e1 = model_out_path e2 -> e1 = e2.
Proof.
  unfold model_out_path. intros H.
  apply (inj (String.app "model/")) in H.
  apply (inj (String.app "model_epoch_")) in H.
  apply string_app_inv_tail in H.
  now apply (inj pretty) in H.
Qed.

Lemma model_out_path_not_dir e : model_out_path e <> "model/".
Proof.
  unfold model_out_path. intros H.
  apply (f_equal String.length) in H.
  rewrite !string_length_app in H. cbn [String.length] in H. lia.
Qed.

Lemma after_save_lookup model epoch w :
  fs (after_save model epoch w) !! model_out_path epoch
  = Some (File (Some {| ck_epoch := epoch; ck_model := model |})).
Proof. unfold after_save. cbn [fs]. apply lookup_insert_eq. Qed.

Lemma after_save_lookup_ne model epoch w epoch' :
  epoch' <> epoch ->
  fs (after_save model epoch w) !! model_out_path epoch'
  = fs w !! model_out_path epoch'.
Proof.
  intros Hne. unfold after_save. cbn [fs].
  rewrite lookup_insert_ne by (intros H; apply model_out_path_inj in H; congruence).
  destruct (fs w !! "model/"); [reflexivity|].
  apply lookup_insert_ne. intros H. symmetry in H.
  now apply model_out_path_not_dir in H.
Qed.

(** C4. Saving a checkpoint for [(epoch, model)] and loading the file it
    wrote gives back [epoch] and the very [model] (so the same weights), and
    resuming from it starts at [epoch + 1] with these weights; the file
    name is an injective function of the epoch alone, so that a later save
    for another epoch leaves the file of this one as it was. *)
Theorem C4_checkpoint_round_trip (model : Model) (epoch : Z) (w : world) :
  let w' := after_save model epoch w in
  save_checkpoint model epoch w = (Ok tt, w')
  /\ torch_load (model_out_path epoch) w'
     = (Ok {| ck_epoch := epoch; ck_model := model |}, w')
  /\ (forall opt other,
        resume opt = model_out_path epoch ->
        exists opt' model' w'',
          resume_block opt other w' = (Ok (opt', model'), w'')
          /\ start_epoch opt' = epoch + 1
          /\ weights model' = weights model)
  /\ (forall e1 e2, model_out_path e1 = model_out_path e2 -> e1 = e2)
  /\ (forall model2 epoch2,
        epoch2 <> epoch ->
        exists w2,
          save_checkpoint model2 epoch2 w' = (Ok tt, w2)
          /\ torch_load (model_out_path epoch) w2
             = (Ok {| ck_epoch := epoch; ck_model := model |}, w2)
          /\ torch_load (model_out_path epoch2) w2
             = (Ok {| ck_epoch := epoch2; ck_model := model2 |}, w2)).
Proof.
  intros w'. split; [apply save_checkpoint_run|]. split; [|split; [|split]].
  - unfold torch_load. subst w'. now rewrite after_save_lookup.
  - intros opt other Hres. do 3 eexists. split.
    + apply resume_block_found.
      * rewrite Hres. reflexivity.
      * rewrite Hres. subst w'. apply after_save_lookup.
    + split; reflexivity.
  - exact model_out_path_inj.
  - intros model2 epoch2 Hne. eexists. split; [apply save_checkpoint_run|].
    split; unfold torch_load.
    + rewrite after_save_lookup_ne by congruence. subst w'.
      now rewrite after_save_lookup.
    + now rewrite after_save_lookup.
Qed.

(** ** C5: progress lines *)

Lemma logged_iterations_app ls1 ls2 :
  logged_iterations (ls1 ++ ls2) = logged_iterations ls1 ++ logged_iterations ls2.
Proof. unfold logged_iterations. apply flat_map_app. Qed.

Lemma pass_lines_logged thr epoch total batches :
  forall iteration st,
    logged_iterations (pass_lines thr epoch total iteration batches st)
    = List.filter (fun i => i mod 100 =? 0)
        (map (fun k => iteration + Z.of_nat k) (seq 0 (length batches))).
Proof.
  induction batches as [|b rest IH]; intros i st; [reflexivity|].
  cbn [pass_lines length seq map List.filter].
  rewrite logged_iterations_app, IH, <- seq_shift, map_map.
  replace (i + Z.of_nat 0) with i by lia.
  replace (map (fun k => i + 1 + Z.of_nat k) (seq 0 (length rest)))
    with (map (fun k => i + Z.of_nat (S k)) (seq 0 (length rest)))
    by (apply map_ext; intros; lia).
  unfold batch_lines. now destruct (i mod 100 =? 0).
Qed.

Lemma pass_lines_shape thr epoch total batches :
  forall iteration st,
    Forall (fun l => exists i loss, l = LProgress epoch i total loss)
      (pass_lines thr epoch total iteration batches st).
Proof.
  induction batches as [|b rest IH]; intros i st; [constructor|].
  cbn [pass_lines]. apply Forall_app. split; [|apply IH].
  unfold batch_lines. destruct (i mod 100 =? 0); repeat constructor.
  now eexists _, _.
Qed.

Lemma pass_lines_hundredths thr epoch total batches st :
  logged_iterations (pass_lines thr epoch total 1 batches st)
  = hundredths (length batches).
Proof.
  rewrite pass_lines_logged. unfold hundredths. f_equal.
  rewrite <- seq_shift, map_map. apply map_ext. intros; lia.
Qed.

Lemma hundredths_In n i :
  In i (hundredths n) <-> 1 <= i <= Z.of_nat n /\ exists k, 1 <= k /\ i = 100 * k.
Proof.
  unfold hundredths. rewrite filter_In, in_map_iff. split.
  - intros [(j & <- & Hj%in_seq) Hmod%Z.eqb_eq]. split; [lia|].
    exists (Z.of_nat j / 100).
    pose proof (Z.div_mod (Z.of_nat j) 100 ltac:(lia)). lia.
  - intros [Hi (k & Hk & ->)]. split.
    + exists (Z.to_nat (100 * k)). split; [lia|]. apply in_seq. lia.
    + apply Z.eqb_eq. rewrite Z.mul_comm. apply Z_mod_mult.
Qed.

Lemma hundredths_NoDup n : List.NoDup (hundredths n).
Proof.
  unfold hundredths. apply List.NoDup_filter.
  apply Injective_map_NoDup; [|apply seq_NoDup].
  intros x y. apply Nat2Z.inj.
Qed.

Lemma after_epochs_stdout opt orders epochs :
  forall k st w,
    logged_iterations (stdout (after_epochs opt orders k epochs st w))
    = logged_iterations (stdout w)
      ++ flat_map (fun j => hundredths (length (orders j))) (seq k (length epochs)).
Proof.
  induction epochs as [|epoch rest IH]; intros k st w.
  - cbn. now rewrite app_nil_r.
  - cbn [after_epochs length seq flat_map]. rewrite IH.
    unfold after_save, after_train, epoch_lines. cbn [stdout].
    rewrite !logged_iterations_app. cbn [logged_iterations flat_map].
    fold (logged_iterations (pass_lines (threshold_of opt (rate_of opt epoch)) epoch
            (Z.of_nat (length (orders k))) 1 (orders k)
            (with_rate (rate_of opt epoch) (fst st), model_train (snd st)))).
    rewrite pass_lines_hundredths. cbn [app].
    now rewrite !app_nil_r, <- !app_assoc.
Qed.

(** C5. In an epoch that goes through, [train] counts the batches from 1
    and prints a progress line exactly for the iterations that are positive
    multiples of 100, once each, with this epoch and the number of batches;
    every epoch of the loop counts from 1 again; and the state the epoch
    leaves (weights, optimizer) and the calls it made (with their
    gradients) are those of the plain fold over the batches, in which
    neither the counter nor the console occurs. *)
Theorem C5_progress_lines
    (opt : options) (loader : DataLoader) (optimizer : Optimizer)
    (model : Model) (epoch : Z) (w : world) :
  epoch_ok opt epoch (order loader (pass loader)) = true ->
  param_groups optimizer <> [] ->
  let batches := order loader (pass loader) in
  let v := rate_of opt epoch in
  let st0 := (with_rate v optimizer, model_train model) in
  exists loader' optimizer' model' w' lines,
    train opt loader optimizer model epoch w = (Ok (loader', optimizer', model'), w')
    /\ stdout w' = stdout w ++ LEpochLr epoch v :: lines
    /\ logged_iterations lines = hundredths (length batches)
    /\ (forall i, In i (logged_iterations lines) <->
                  1 <= i <= Z.of_nat (length batches)
                  /\ exists k, 1 <= k /\ i = 100 * k)
    /\ List.NoDup (logged_iterations lines)
    /\ Forall (fun l => exists i loss,
                 l = LProgress epoch i (Z.of_nat (length batches)) loss) lines
    /\ (optimizer', model') = fold_left (batch_state (threshold_of opt v)) batches st0
    /\ calls w' = calls w ++ pass_calls (threshold_of opt v) batches st0
    /\ fs w' = fs w
    /\ (forall epochs k st w0,
          logged_iterations (stdout (after_epochs opt (order loader) k epochs st w0))
          = logged_iterations (stdout w0)
            ++ flat_map (fun j => hundredths (length (order loader j)))
                 (seq k (length epochs))).
Proof.
  intros Hok Hg batches v st0.
  do 5 eexists. split; [apply train_run; assumption|].
  unfold after_train, epoch_lines, epoch_calls. cbn [stdout calls fs fst snd].
  fold batches. fold v. fold st0.
  split; [reflexivity|]. split; [apply pass_lines_hundredths|].
  split; [intros i; rewrite pass_lines_hundredths; apply hundredths_In|].
  split; [rewrite pass_lines_hundredths; apply hundredths_NoDup|].
  split; [apply pass_lines_shape|].
  split; [unfold epoch_state; fold v; fold st0; now rewrite <- surjective_pairing|].
  split; [reflexivity|]. split; [reflexivity|].
  intros. apply after_epochs_stdout.
Qed.

(** ** C7: a loader without batches *)

Lemma py_range_In a b e : In e (py_range a b) <-> a <= e < b.
Proof.
  unfold py_range. rewrite in_map_iff. split.
  - intros (i & <- & Hi%in_seq). lia.
  - intros He. exists (Z.to_nat (e - a)). split; [lia|]. apply in_seq. lia.
Qed.

Lemma epochs_ok_empty opt orders epochs :
  (forall k, orders k = []) ->
  (forall e, In e epochs -> exists v, adjust_learning_rate opt (e - 1) = Ok v) ->
  forall k, epochs_ok opt orders k epochs = true.
Proof.
  intros Hempty. induction epochs as [|epoch rest IH]; intros Hrate k; [reflexivity|].
  cbn [epochs_ok]. rewrite IH by (intros; apply Hrate; now right).
  unfold epoch_ok. destruct (Hrate epoch (or_introl eq_refl)) as [v ->].
  now rewrite Hempty.
Qed.

Lemma epoch_state_empty opt epoch st :
  epoch_state opt epoch [] st
  = (with_rate (rate_of opt epoch) (fst st), model_train (snd st)).
Proof. reflexivity. Qed.

(** With no batches, a run of epochs makes no call, keeps the weights and
    the momenta, and leaves a checkpoint with these weights per epoch. *)
Lemma after_epochs_empty opt orders :
  (forall k, orders k = []) ->
  forall epochs k st w,
    calls (after_epochs opt orders k epochs st w) = calls w
    /\ weights (snd (epochs_state opt orders k epochs st)) = weights (snd st)
    /\ momenta (fst (epochs_state opt orders k epochs st)) = momenta (fst st)
    /\ forall e,
         In e epochs
         \/ (exists m, fs w !! model_out_path e
                       = Some (File (Some {| ck_epoch := e; ck_model := m |}))
                       /\ weights m = weights (snd st)) ->
         exists m, fs (after_epochs opt orders k epochs st w) !! model_out_path e
                   = Some (File (Some {| ck_epoch := e; ck_model := m |}))
                   /\ weights m = weights (snd st).
Proof.
  intros Hempty. induction epochs as [|epoch rest IH]; intros k st w.
  - cbn. repeat split; try reflexivity. intros e [[]|H]. exact H.
  - cbn [after_epochs epochs_state]. rewrite Hempty, epoch_state_empty.
    set (st' := (with_rate (rate_of opt epoch) (fst st), model_train (snd st))).
    destruct (IH (S k) st'
                (after_save (snd st') epoch (after_train opt epoch [] st w)))
      as (Hc & Hw & Hm & Hf).
    split; [|split; [|split]].
    + rewrite Hc. unfold after_save, after_train, epoch_calls. cbn.
      now rewrite app_nil_r.
    + rewrite Hw. reflexivity.
    + rewrite Hm. reflexivity.
    + intros e He. apply Hf. destruct (Z.eq_dec e epoch) as [->|Hne].
      * right. eexists. split; [apply after_save_lookup|reflexivity].
      * destruct He as [[Heq|Hin]|(m & Hl & Hwm)]; [congruence|now left|].
        right. exists m. split; [|exact Hwm].
        rewrite after_save_lookup_ne by exact Hne. exact Hl.
Qed.

(** C7. When the loader yields no batches and the rate of the epoch can
    be computed (the decay step is not zero and [0.5 ** k] is in range),
    [train] completes without a single call to the clipping or to the
    optimizer, the weights and the momenta are as before, nothing is
    raised, and [save_checkpoint] writes the checkpoint of the epoch; so
    does every epoch of the training loop, which ends with the weights it
    started from and a checkpoint with these weights for each epoch of
    the range. *)
Theorem C7_empty_loader
    (opt : options) (loader : DataLoader) (optimizer : Optimizer)
    (model : Model) (w : world) :
  (forall k, order loader k = []) ->
  (forall e, start_epoch opt <= e <= nEpochs opt ->
             exists v, adjust_learning_rate opt (e - 1) = Ok v) ->
  param_groups optimizer <> [] ->
  (forall epoch w0,
     start_epoch opt <= epoch <= nEpochs opt ->
     exists loader' optimizer' model' w1 w2,
       train opt loader optimizer model epoch w0
       = (Ok (loader', optimizer', model'), w1)
       /\ calls w1 = calls w0
       /\ weights model' = weights model
       /\ momenta optimizer' = momenta optimizer
       /\ save_checkpoint model' epoch w1 = (Ok tt, w2)
       /\ fs w2 !! model_out_path epoch
          = Some (File (Some {| ck_epoch := epoch; ck_model := model' |})))
  /\ exists st' w',
       epochs_loop opt (py_range (start_epoch opt) (nEpochs opt + 1))
         (loader, optimizer, model) w = (Ok st', w')
       /\ calls w' = calls w
       /\ weights (snd st') = weights model
       /\ forall e, start_epoch opt <= e <= nEpochs opt ->
            exists m, fs w' !! model_out_path e
                      = Some (File (Some {| ck_epoch := e; ck_model := m |}))
                      /\ weights m = weights model.
Proof.
  intros Hempty Hrate Hg. split.
  - intros epoch w0 He. destruct (Hrate epoch He) as [v Hv].
    assert (Hok : epoch_ok opt epoch (order loader (pass loader)) = true).
    { unfold epoch_ok. now rewrite Hv, Hempty. }
    do 5 eexists. split; [apply train_run; assumption|].
    rewrite Hempty, epoch_state_empty. cbn [fst snd].
    split; [|split; [reflexivity|split; [reflexivity|split]]].
    + unfold after_train, epoch_calls. cbn. now rewrite app_nil_r.
    + apply save_checkpoint_run.
    + apply after_save_lookup.
  - set (epochs := py_range (start_epoch opt) (nEpochs opt + 1)).
    assert (Hin : forall e, In e epochs <-> start_epoch opt <= e <= nEpochs opt).
    { intros e. unfold epochs. rewrite py_range_In. lia. }
    do 2 eexists. split.
    { apply epochs_loop_run; [|exact Hg].
      apply epochs_ok_empty; [exact Hempty|].
      intros e He. apply Hrate. now apply Hin. }
    destruct (after_epochs_empty opt (order loader) Hempty epochs (pass loader)
                (optimizer, model) w) as (Hc & Hw & _ & Hf).
    cbn [snd]. split; [exact Hc|]. split; [exact Hw|].
    intros e He. apply Hf. left. now apply Hin.
Qed.

(** ** C6: the clip threshold *)

Lemma pass_calls_thresholds thr batches :
  forall st, clip_thresholds (pass_calls thr batches st) = repeat thr (length batches).
Proof.
  induction batches as [|b rest IH]; intros st; [reflexivity|].
  cbn [pass_calls length repeat]. unfold clip_thresholds in *.
  rewrite flat_map_app, IH. reflexivity.
Qed.

(** Moving the divisor one binade up moves the raw quotient one down. *)
Lemma SFdiv_core_binary_shift (m1 m2 : positive) (e1 e2 : Z) :
  -1020 <= Z.pos (digits2_pos m1) + e1 - (Z.pos (digits2_pos m2) + e2) - 53 ->
  SFdiv_core_binary 53 1024 (Z.pos m1) e1 (Z.pos m2) (e2 + 1)
  = let '(q, e, l) := SFdiv_core_binary 53 1024 (Z.pos m1) e1 (Z.pos m2) e2 in
    (q, e - 1, l).
Proof.
  intros HX. unfold SFdiv_core_binary. cbn [Zdigits2]. rewrite !fexp_64.
  set (X := Z.pos (digits2_pos m1) + e1 - (Z.pos (digits2_pos m2) + e2)) in *.
  replace (Z.pos (digits2_pos m1) + e1 - (Z.pos (digits2_pos m2) + (e2 + 1)))
    with (X - 1) by (unfold X; lia).
  replace (Z.min (Z.max (X - 1 - 53) (-1074)) (e1 - (e2 + 1)))
    with (Z.min (Z.max (X - 53) (-1074)) (e1 - e2) - 1) by lia.
  set (E := Z.min (Z.max (X - 53) (-1074)) (e1 - e2)).
  replace (e1 - (e2 + 1) - (E - 1)) with (e1 - e2 - E) by lia.
  now destruct (Z.div_eucl _ (Z.pos m2)).
Qed.

Lemma SFdiv_core_binary_exp (m1 m2 : positive) (e1 e2 : Z) :
  snd (fst (SFdiv_core_binary 53 1024 (Z.pos m1) e1 (Z.pos m2) e2))
  = Z.min (Z.max (Z.pos (digits2_pos m1) + e1 - (Z.pos (digits2_pos m2) + e2) - 53)
             (-1074)) (e1 - e2).
Proof.
  unfold SFdiv_core_binary. cbn [Zdigits2]. rewrite fexp_64.
  now destruct (Z.div_eucl _ (Z.pos m2)).
Qed.

Lemma Zdigits2_nonneg (m : Z) : 0 <= Zdigits2 m.
Proof. destruct m; cbn; lia. Qed.

Lemma shr_exponent mrs e n : e <= snd (shr mrs e n).
Proof. destruct n; cbn; lia. Qed.

Lemma shr_shift mrs e n : shr mrs (e - 1) n = (fst (shr mrs e n), snd (shr mrs e n) - 1).
Proof. destruct n; cbn; f_equal; lia. Qed.

Lemma shr_fexp_shift (m e : Z) (l : location) :
  -1020 <= e ->
  shr_fexp 53 1024 m (e - 1) l
  = (fst (shr_fexp 53 1024 m e l), snd (shr_fexp 53 1024 m e l) - 1)
  /\ e <= snd (shr_fexp 53 1024 m e l).
Proof.
  intros He. unfold shr_fexp. rewrite !fexp_64.
  pose proof (Zdigits2_nonneg m).
  replace (Z.max (Zdigits2 m + (e - 1) - 53) (-1074) - (e - 1))
    with (Z.max (Zdigits2 m + e - 53) (-1074) - e) by lia.
  split; [apply shr_shift|apply shr_exponent].
Qed.

(** Rounding one binade lower gives the same significand one binade
    lower, away from the subnormal range and from overflow. *)
Lemma binary_round_aux_shift (s : bool) (m e : Z) (l : location) :
  -1020 <= e ->
  (forall s', binary_round_aux 53 1024 s m e l <> S754_infinity s') ->
  binary_round_aux 53 1024 s m (e - 1) l
  = F64.halve (binary_round_aux 53 1024 s m e l).
Proof.
  intros He Hfin. unfold binary_round_aux in *.
  destruct (shr_fexp_shift m e l He) as [H1 Hle1]. rewrite H1.
  destruct (shr_fexp 53 1024 m e l) as [mrs1 e1]. cbn [fst snd] in *.
  set (m1 := round_nearest_even (shr_m mrs1) (loc_of_shr_record mrs1)) in *.
  destruct (shr_fexp_shift m1 e1 loc_Exact ltac:(lia)) as [H2 Hle2]. rewrite H2.
  destruct (shr_fexp 53 1024 m1 e1 loc_Exact) as [mrs2 e2]. cbn [fst snd] in *.
  destruct (shr_m mrs2) as [|p|p]; try reflexivity.
  change (1024 - 53) with 971 in *.
  destruct (Z.leb_spec e2 971).
  - destruct (Z.leb_spec (e2 - 1) 971); [reflexivity|lia].
  - now destruct (Hfin s).
Qed.

(** The quotient by a divisor one binade up. *)
Lemma div_double (sx sy : bool) (mx my : positive) (ex ey : Z) :
  -967 <= Z.pos (digits2_pos mx) + ex - (Z.pos (digits2_pos my) + ey) ->
  -1020 <= ex - ey ->
  (forall s', F64.div (S754_finite sx mx ex) (S754_finite sy my ey)
              <> S754_infinity s') ->
  F64.div (S754_finite sx mx ex) (S754_finite sy my (ey + 1))
  = F64.halve (F64.div (S754_finite sx mx ex) (S754_finite sy my ey)).
Proof.
  intros HX He Hfin. unfold F64.div, SFdiv, F64.prec, F64.emax in *.
  rewrite SFdiv_core_binary_shift by lia.
  pose proof (SFdiv_core_binary_exp mx my ex ey) as Hexp.
  destruct (SFdiv_core_binary 53 1024 (Z.pos mx) ex (Z.pos my) ey) as [[q e] l].
  cbn [fst snd] in Hexp.
  apply binary_round_aux_shift; [lia|exact Hfin].
Qed.

Lemma halve_value (x : spec_float) : (F64.to_Q (F64.halve x) == F64.to_Q x / 2)%Q.
Proof.
  destruct x as [s|s| |s m e]; cbn [F64.halve F64.to_Q]; try reflexivity.
  assert (H2 : ~ (2 == 0)%Q) by discriminate.
  assert (Hp : (2 ^ (e - 1) == 2 ^ e * / 2)%Q).
  { replace (e - 1) with (e + -1) by lia. now rewrite Qpower_plus. }
  cbv zeta. destruct s; rewrite Hp; field.
Qed.

(** Doubling a normal double that stays in range. *)
Lemma double_normal (s : bool) (m : positive) (e : Z) :
  F64.valid (S754_finite s m e) = true ->
  F64.normal (S754_finite s m e) = true ->
  e <= 970 ->
  py_fmul (S754_finite s m e) F64.two = S754_finite s m (e + 1).
Proof.
  intros Hv Hn He. replace (e + 1) with (e - -1) by lia.
  apply mul_pow_half_exact; [lia|reflexivity|].
  apply bounded_64 in Hv as [Hc _]. cbn [F64.normal] in Hn.
  apply Z.eqb_eq in Hn. unfold F64.prec in Hn.
  unfold bounded, canonical_mantissa. rewrite fexp_64, Hn.
  apply andb_true_intro. split; [apply Z.eqb_eq|apply Z.leb_le]; [lia|].
  change (1024 - 53) with 971. lia.
Qed.

(** C6 (as amended). In an epoch that goes through, every batch calls
    [clip_grad_norm] with the threshold [opt.clip / lr] of that epoch's
    rate.  For a clip value and a normal rate whose quotient is neither
    close to the subnormal range nor infinite, doubling the rate makes the
    threshold exactly half of what it was. *)
Theorem C6_clip_threshold
    (opt : options) (loader : DataLoader) (optimizer : Optimizer)
    (model : Model) (epoch : Z) (w : world) :
  epoch_ok opt epoch (order loader (pass loader)) = true ->
  param_groups optimizer <> [] ->
  let batches := order loader (pass loader) in
  let v := rate_of opt epoch in
  (exists r w' cs,
     train opt loader optimizer model epoch w = (Ok r, w')
     /\ adjust_learning_rate opt (epoch - 1) = Ok v
     /\ calls w' = calls w ++ cs
     /\ clip_thresholds cs = repeat (threshold_of opt v) (length batches)
     /\ (batches <> [] -> py_fdiv (clip opt) v = Ok (threshold_of opt v)))
  /\ (forall sc mc ec sl ml el,
        let c := S754_finite sc mc ec in
        let r := S754_finite sl ml el in
        F64.valid r = true -> F64.normal r = true -> el <= 970 ->
        -967 <= Z.pos (digits2_pos mc) + ec - (Z.pos (digits2_pos ml) + el) ->
        -1020 <= ec - el ->
        (forall s', F64.div c r <> S754_infinity s') ->
        py_fmul r F64.two = S754_finite sl ml (el + 1)
        /\ py_fdiv c r = Ok (F64.div c r)
        /\ py_fdiv c (py_fmul r F64.two) = Ok (F64.halve (F64.div c r))
        /\ (F64.to_Q (F64.halve (F64.div c r)) == F64.to_Q (F64.div c r) / 2)%Q).
Proof.
  intros Hok Hg batches v. split.
  - do 3 eexists. split; [apply train_run; assumption|].
    unfold after_train, epoch_calls. cbn [calls]. fold batches. fold v.
    unfold epoch_ok in Hok. fold batches in Hok. unfold v, rate_of.
    destruct (adjust_learning_rate opt (epoch - 1)) as [v0|e]; [|discriminate].
    split; [reflexivity|]. split; [reflexivity|].
    split; [apply pass_calls_thresholds|].
    intros Hne. destruct batches as [|b rest]; [congruence|].
    apply negb_true_iff in Hok. unfold threshold_of.
    now rewrite (py_fdiv_nonzero _ _ Hok).
  - intros sc mc ec sl ml el c r Hv Hn Hel HX He Hfin.
    assert (Hd : py_fmul r F64.two = S754_finite sl ml (el + 1))
      by now apply double_normal.
    split; [exact Hd|]. split; [reflexivity|]. split.
    + rewrite Hd. unfold py_fdiv. cbn [F64.is_zero]. f_equal.
      now apply div_double.
    + apply halve_value.
Qed.

(** ** C10: the sign of the rate and the division by it *)

Lemma int_small (q : Z) : -1023 <= q <= 1074 -> int_too_large_for_float q = false.
Proof.
  intros Hq. unfold int_too_large_for_float. apply Z.leb_gt.
  assert (1 <= 2 ^ 970) by (apply Z.lt_pred_le, Z.pow_pos_nonneg; lia).
  change (2 ^ 1024) with (2 ^ 970 * 18014398509481984). nia.
Qed.

(** [0.5 ** q] is rounded to [0.0] from 1075 on. *)
Lemma py_pow_half_underflow (q : Z) :
  1075 <= q -> int_too_large_for_float q = false ->
  py_pow_half q = Ok (S754_zero false).
Proof.
  intros Hq Hs. unfold py_pow_half. rewrite Hs.
  destruct (Z.leb_spec q (-1024)); [lia|].
  destruct (Z.leb_spec q 1022); [lia|].
  destruct (Z.leb_spec q 1074); [lia|reflexivity].
Qed.

Lemma py_pow_half_shape (q : Z) :
  -1023 <= q -> int_too_large_for_float q = false ->
  exists p, py_pow_half q = Ok p
            /\ (p = S754_zero false \/ exists m e, p = S754_finite false m e).
Proof.
  intros Hq Hs. destruct (Z.le_gt_cases q 1074).
  - destruct (py_pow_half_range q ltac:(lia)) as (my & n & Hp & _).
    eexists. split; [exact Hp|]. right. now eexists _, _.
  - eexists. split; [apply py_pow_half_underflow; [lia|exact Hs]|]. now left.
Qed.

(** C10 (as amended). With a decay step that is not zero and
    [k = floor((epoch-1)/S)]: if the base rate is a positive normal double
    [m * 2^e] and [lr0 * 2^-k] is still a double with that significand
    ([-1023 <= k <= 1074] and [-1074 <= e - k <= 971]), the rate of the epoch
    is exactly [m * 2^(e-k)], strictly positive, and [opt.clip / lr] does not
    raise.  If the base rate is finite and [0.5 ** k] has underflowed
    ([k >= 1075]), or if the base rate is zero, the rate is zero, and then
    the first batch of the epoch raises [ZeroDivisionError] before any call
    to the clipping or to the optimizer. *)
Theorem C10_rate_sign (opt : options) (epoch : Z) :
  step opt <> 0 ->
  let k := floor_quot (epoch - 1) (step opt) in
  (forall m e,
     lr opt = S754_finite false m e ->
     F64.valid (lr opt) = true -> F64.normal (lr opt) = true ->
     -1023 <= k <= 1074 -> -1074 <= e - k <= 971 ->
     adjust_learning_rate opt (epoch - 1) = Ok (S754_finite false m (e - k))
     /\ F64.is_positive (S754_finite false m (e - k)) = true
     /\ py_fdiv (clip opt) (S754_finite false m (e - k))
        = Ok (F64.div (clip opt) (S754_finite false m (e - k))))
  /\ (forall s m e,
     lr opt = S754_finite s m e ->
     1075 <= k -> int_too_large_for_float k = false ->
     adjust_learning_rate opt (epoch - 1) = Ok (S754_zero s))
  /\ (forall s,
     lr opt = S754_zero s ->
     -1023 <= k -> int_too_large_for_float k = false ->
     adjust_learning_rate opt (epoch - 1) = Ok (S754_zero s))
  /\ (forall s loader optimizer model w b rest,
     adjust_learning_rate opt (epoch - 1) = Ok (S754_zero s) ->
     param_groups optimizer <> [] ->
     order loader (pass loader) = b :: rest ->
     py_fdiv (clip opt) (S754_zero s) = Raise ZeroDivisionError
     /\ train opt loader optimizer model epoch w
        = (Raise ZeroDivisionError, say [LEpochLr epoch (S754_zero s)] w)).
Proof.
  intros HS k. pose proof (adjust_learning_rate_spec opt epoch HS) as Hspec.
  unfold schedule_spec in Hspec. fold k in Hspec.
  split; [|split; [|split]].
  - intros m e Hlr Hv Hn Hk He.
    destruct (py_pow_half_range k Hk) as (my & n & Hp & Hmy & Hn0).
    assert (Hb : bounded 53 1024 m (e - k) = true).
    { rewrite Hlr in Hv, Hn. cbn [F64.normal] in Hn.
      apply Z.eqb_eq in Hn. unfold F64.prec in Hn.
      unfold bounded, canonical_mantissa. rewrite fexp_64, Hn.
      apply andb_true_intro. split; [apply Z.eqb_eq|apply Z.leb_le]; [lia|].
      change (1024 - 53) with 971. lia. }
    split; [|split; reflexivity].
    rewrite Hspec, Hp. cbn [rbind]. f_equal. rewrite Hlr.
    now apply mul_pow_half_exact.
  - intros s m e Hlr Hk Hs. rewrite Hspec, py_pow_half_underflow by assumption.
    cbn [rbind]. rewrite Hlr. unfold py_fmul, F64.mul. cbn.
    now rewrite xorb_false_r.
  - intros s Hlr Hk Hs.
    destruct (py_pow_half_shape k Hk Hs) as (p & Hp & [-> | (m & e & ->)]);
      rewrite Hspec, Hp; cbn [rbind]; rewrite Hlr;
      unfold py_fmul, F64.mul; cbn; now rewrite xorb_false_r.
  - intros s loader optimizer model w b rest Hv Hg Hb.
    split; [reflexivity|].
    now apply (train_raise_zero _ _ _ _ _ _ (S754_zero s) b rest).
Qed.

(** ** C9: the seed *)

Lemma respects_ret {A} (a : A) : respects (ret a).
Proof. intros w1 w2 H. now split. Qed.

Lemma respects_raise {A} (e : exn) : respects (@raise A e).
Proof. intros w1 w2 H. now split. Qed.

Lemma respects_lift {A} (r : result A) : respects (lift r).
Proof. intros w1 w2 H. now split. Qed.

Lemma respects_print l : respects (print l).
Proof.
  intros w1 w2 (Hf & Hc & Hs). split; [reflexivity|].
  unfold print, same_but_seed; cbn. rewrite !map_app, Hs. auto.
Qed.

Lemma respects_record_call c : respects (record_call c).
Proof.
  intros w1 w2 (Hf & Hc & Hs). split; [reflexivity|].
  unfold record_call, same_but_seed; cbn. rewrite Hc. auto.
Qed.

Lemma respects_os_path_isfile p : respects (os_path_isfile p).
Proof.
  intros w1 w2 (Hf & Hc & Hs). unfold os_path_isfile; cbn. rewrite Hf.
  split; [reflexivity|]. now repeat split.
Qed.

Lemma respects_os_path_exists p : respects (os_path_exists p).
Proof.
  intros w1 w2 (Hf & Hc & Hs). unfold os_path_exists; cbn. rewrite Hf.
  split; [reflexivity|]. now repeat split.
Qed.

Lemma respects_write_node p n : respects (write_node p n).
Proof.
  intros w1 w2 (Hf & Hc & Hs). split; [reflexivity|].
  unfold write_node, same_but_seed; cbn. rewrite Hf. auto.
Qed.

Lemma respects_torch_load p : respects (torch_load p).
Proof.
  intros w1 w2 (Hf & Hc & Hs). unfold torch_load. rewrite Hf.
  destruct (fs w2 !! p) as [[|[ck|]]|]; cbn; (split; [reflexivity|now repeat split]).
Qed.

Lemma respects_bind {A B} (m : M A) (k : A -> M B) :
  respects m -> (forall a, respects (k a)) -> respects (bind m k).
Proof.
  intros Hm Hk w1 w2 H. unfold bind.
  destruct (Hm w1 w2 H) as [Hr Hw].
  destruct (m w1) as [r1 w1'], (m w2) as [r2 w2']. cbn [fst snd] in *.
  subst r2. destruct r1 as [a|e]; [now apply Hk|]. now split.
Qed.

Create HintDb respects.
#[local] Hint Resolve respects_ret respects_raise respects_lift respects_print
  respects_record_call respects_os_path_isfile respects_os_path_exists
  respects_write_node respects_torch_load : respects.

Ltac respects_step :=
  first [ apply respects_bind; [|intros ?]
        | progress auto with respects ].

Lemma respects_batch_body opt v epoch total iteration batch st :
  respects (batch_body opt v epoch total iteration batch st).
Proof.
  unfold batch_body. destruct st as [optimizer model].
  destruct (forward_backward _ _) as [loss g].
  repeat respects_step. destruct (sgd_step _ _ _ _).
  destruct (iteration mod 100 =? 0); repeat respects_step.
Qed.

Lemma respects_for_batches opt v epoch total batches :
  forall iteration st,
    respects (for_batches (batch_body opt v epoch total) iteration batches st).
Proof.
  induction batches as [|b rest IH]; intros i st; cbn [for_batches].
  - apply respects_ret.
  - apply respects_bind; [apply respects_batch_body|intros; apply IH].
Qed.

Lemma respects_train opt loader optimizer model epoch :
  respects (train opt loader optimizer model epoch).
Proof.
  unfold train. apply respects_bind; [apply respects_lift|intros [v o]].
  apply respects_bind; [apply respects_lift|intros g0].
  apply respects_bind; [apply respects_print|intros _].
  cbn [iterate].
  apply respects_bind; [apply respects_for_batches|intros; apply respects_ret].
Qed.

Lemma respects_save_checkpoint model epoch : respects (save_checkpoint model epoch).
Proof.
  unfold save_checkpoint, os_makedirs, torch_save.
  apply respects_bind; [apply respects_os_path_exists|intros present].
  apply respects_bind; [destruct present; cbn; auto with respects|intros _].
  repeat respects_step.
Qed.

Lemma respects_epochs_loop opt epochs :
  forall st, respects (epochs_loop opt epochs st).
Proof.
  induction epochs as [|epoch rest IH]; intros [[loader optimizer] model];
    cbn [epochs_loop].
  - apply respects_ret.
  - apply respects_bind; [apply respects_train|intros st'].
    apply respects_bind; [apply respects_save_checkpoint|intros _; apply IH].
Qed.

Lemma respects_training_loop opt loader model :
  respects (training_loop opt loader model).
Proof.
  unfold training_loop.
  apply respects_bind; [apply respects_print|intros _].
  apply respects_bind; [apply respects_print|intros _].
  apply respects_bind; [apply respects_epochs_loop|intros; apply respects_ret].
Qed.

Lemma respects_resume_block opt model : respects (resume_block opt model).
Proof.
  unfold resume_block. destruct (py_truthy (resume opt)); [|apply respects_ret].
  apply respects_bind; [apply respects_os_path_isfile|intros found].
  destruct found; repeat respects_step.
Qed.

Lemma respects_pretrained_block opt model : respects (pretrained_block opt model).
Proof.
  unfold pretrained_block. destruct (py_truthy (pretrained opt)); [|apply respects_ret].
  apply respects_bind; [apply respects_os_path_isfile|intros found].
  destruct found; repeat respects_step.
Qed.

Lemma respects_load_and_train opt loader model :
  respects (load_and_train opt loader model).
Proof.
  unfold load_and_train.
  apply respects_bind; [apply respects_resume_block|intros om].
  apply respects_bind; [apply respects_pretrained_block|intros m].
  apply respects_training_loop.
Qed.

(** The loops read the rate, the step and the clip value of [opt], never
    its seed. *)
Lemma epochs_loop_seed opt d epochs :
  forall st w, epochs_loop (set_seed opt d) epochs st w = epochs_loop opt epochs st w.
Proof.
  induction epochs as [|epoch rest IH]; intros [[loader optimizer] model] w;
    [reflexivity|].
  cbn [epochs_loop]. unfold bind.
  change (train (set_seed opt d) loader optimizer model epoch w)
    with (train opt loader optimizer model epoch w).
  destruct (train opt loader optimizer model epoch w) as [[st'|e] w1];
    [|reflexivity].
  destruct (save_checkpoint (snd st') epoch w1) as [[[]|e] w2]; [|reflexivity].
  apply IH.
Qed.

Lemma training_loop_seed opt d loader model w :
  training_loop (set_seed opt d) loader model w
  = (rbind (fst (training_loop opt loader model w)) (fun f => Ok (reseed d f)),
     snd (training_loop opt loader model w)).
Proof.
  unfold training_loop, bind, print, ret. cbn [fst snd].
  change (SGD (set_seed opt d)) with (SGD opt).
  change (start_epoch (set_seed opt d)) with (start_epoch opt).
  change (nEpochs (set_seed opt d)) with (nEpochs opt).
  rewrite epochs_loop_seed.
  now destruct (epochs_loop opt _ _ _) as [[st|e] w1].
Qed.

Lemma load_and_train_seed opt d loader model w :
  load_and_train (set_seed opt d) loader model w
  = (rbind (fst (load_and_train opt loader model w)) (fun f => Ok (reseed d f)),
     snd (load_and_train opt loader model w)).
Proof.
  unfold load_and_train, bind.
  assert (Hres : resume_block (set_seed opt d) model w
                 = (rbind (fst (resume_block opt model w))
                      (fun om => Ok (set_seed (fst om) d, snd om)),
                    snd (resume_block opt model w))).
  { unfold resume_block, bind, os_path_isfile, torch_load, print, ret.
    change (resume (set_seed opt d)) with (resume opt).
    destruct (py_truthy (resume opt)); [|reflexivity].
    cbn [fs]. destruct (fs w !! resume opt) as [[|[ck|]]|] eqn:E;
      cbn [fs fst snd rbind]; rewrite ?E; reflexivity. }
  rewrite Hres.
  destruct (resume_block opt model w) as [[[o m]|e] w1]; [|reflexivity].
  cbn [rbind fst snd].
  change (pretrained_block (set_seed o d) m w1) with (pretrained_block o m w1).
  destruct (pretrained_block o m w1) as [[m'|e] w2]; [|reflexivity].
  apply training_loop_seed.
Qed.

Lemma same_but_seed_banner opt d1 d2 w :
  same_but_seed (say (banner opt d1) w) (say (banner opt d2) w).
Proof.
  unfold same_but_seed, say, banner; cbn. repeat split.
  now rewrite !map_app.
Qed.

(** C9. Two runs of [main] that differ only in the integer drawn for the
    seed end alike: the same exception or the same final loader, optimizer
    and model (the options differ in the recorded seed alone); the same
    files, so the same checkpoints; the same calls to the collaborators, so
    the same rates, thresholds and gradients; and the same console but for the
    number in the "Random Seed" line. *)
Theorem C9_seed_only_printed
    (opt : options) (cuda_available : bool) (d1 d2 : Z) (fresh : Weights)
    (orders : nat -> list Batch) (w : world) :
  let run1 := main opt cuda_available d1 fresh orders w in
  let run2 := main opt cuda_available d2 fresh orders w in
  fst run2 = rbind (fst run1) (fun f => Ok (reseed d2 f))
  /\ fs (snd run1) = fs (snd run2)
  /\ calls (snd run1) = calls (snd run2)
  /\ map unseed_line (stdout (snd run1)) = map unseed_line (stdout (snd run2))
  /\ step_rates (calls (snd run1)) = step_rates (calls (snd run2))
  /\ clip_thresholds (calls (snd run1)) = clip_thresholds (calls (snd run2)).
Proof.
  intros run1 run2. subst run1 run2.
  destruct (cuda opt && negb cuda_available) eqn:Hcuda.
  - rewrite !main_no_gpu by exact Hcuda. now repeat split.
  - rewrite !main_unfold by exact Hcuda.
    fold (load_and_train (set_seed opt d1) (new_loader orders) (new_model fresh)).
    fold (load_and_train (set_seed opt d2) (new_loader orders) (new_model fresh)).
    rewrite !load_and_train_seed. cbn [fst snd].
    destruct (respects_load_and_train opt (new_loader orders) (new_model fresh)
                _ _ (same_but_seed_banner opt d1 d2 w)) as [Hr (Hf & Hc & Hs)].
    rewrite <- Hr, Hc. repeat split; try assumption.
    now destruct (fst (load_and_train opt _ _ _)).
Qed.

(** ** C3: resuming *)

Lemma training_loop_run opt loader model w :
  epochs_ok opt (order loader) (pass loader)
    (py_range (start_epoch opt) (nEpochs opt + 1)) = true ->
  let epochs := py_range (start_epoch opt) (nEpochs opt + 1) in
  let st := epochs_state opt (order loader) (pass loader) epochs (SGD opt, model) in
  training_loop opt loader model w
  = (Ok {| f_opt := opt; f_loader := advance loader (length epochs);
           f_optimizer := fst st; f_model := snd st |},
     after_epochs opt (order loader) (pass loader) epochs (SGD opt, model)
       (say [LSettingOptimizer; LTraining] w)).
Proof.
  intros Hok epochs st. unfold training_loop.
  unfold bind at 1. rewrite print_say.
  unfold bind at 1. rewrite print_say, say_say. cbn [app].
  unfold bind. fold epochs.
  rewrite epochs_loop_run by (assumption || discriminate).
  reflexivity.
Qed.

(** An epoch starts by [model.train()]: it sees the weights of the model. *)
Lemma epoch_state_weights opt epoch batches optimizer m1 m2 :
  weights m1 = weights m2 ->
  epoch_state opt epoch batches (optimizer, m1)
  = epoch_state opt epoch batches (optimizer, m2).
Proof.
  intros H. unfold epoch_state, model_train. cbn [fst snd]. now rewrite H.
Qed.

Lemma set_lr_set_lr v u gs :
  map (set_lr v) (map (set_lr u) gs) = map (set_lr v) gs.
Proof. rewrite map_map. now apply map_ext. Qed.

(** Without momentum in the update, the weights after a pass depend on the
    optimizer through its groups alone. *)
Lemma pass_state_momentum_free thr batches :
  momentum_free ->
  forall st1 st2,
    param_groups (fst st1) = param_groups (fst st2) ->
    weights (snd st1) = weights (snd st2) ->
    weights (snd (pass_state thr batches st1))
    = weights (snd (pass_state thr batches st2)).
Proof.
  intros Hfree. unfold pass_state.
  induction batches as [|b rest IH]; intros st1 st2 Hg Hw; [exact Hw|].
  cbn [fold_left]. apply IH.
  - change (batch_state thr st1 b) with (pass_state thr [b] st1).
    change (batch_state thr st2 b) with (pass_state thr [b] st2).
    now rewrite !pass_state_groups.
  - unfold batch_state. destruct st1 as [o1 m1], st2 as [o2 m2].
    cbn [fst snd] in *. rewrite Hg, Hw.
    destruct (forward_backward (weights m2) b) as [loss g].
    pose proof (Hfree (param_groups o2) (momenta o1) (momenta o2) (weights m2)
                  (clip_grad_norm g thr)) as H.
    destruct (sgd_step _ (momenta o1) _ _), (sgd_step _ (momenta o2) _ _).
    exact H.
Qed.

Lemma epoch_state_momentum_free opt epoch batches st1 st2 :
  momentum_free ->
  (forall v, map (set_lr v) (param_groups (fst st1))
             = map (set_lr v) (param_groups (fst st2))) ->
  weights (snd st1) = weights (snd st2) ->
  weights (snd (epoch_state opt epoch batches st1))
  = weights (snd (epoch_state opt epoch batches st2))
  /\ param_groups (fst (epoch_state opt epoch batches st1))
     = param_groups (fst (epoch_state opt epoch batches st2)).
Proof.
  intros Hfree Hg Hw. split.
  - unfold epoch_state. apply pass_state_momentum_free; [exact Hfree| |exact Hw].
    cbn [fst with_rate param_groups]. apply Hg.
  - rewrite !epoch_state_groups. apply Hg.
Qed.

(** C3. Take a run of epochs 1 to 5 that goes through, a run of epochs 1
    to 3 from the same fresh weights, and a run resumed from the latter's
    epoch-3 checkpoint up to epoch 5, the loader giving the same batches for
    the same epochs.  The resumed run starts at epoch 4 from the weights
    saved after epoch 3, and its epochs 4 and 5 are those of the
    uninterrupted run except that they start from a new optimizer (no
    momenta) where the uninterrupted run carries its optimizer on; when the
    update of the weights does not look at the momenta, the weights after
    epoch 5 are the same. *)
Theorem C3_resume_continuity
    (opt : options) (cuda_available : bool) (dA dB dC : Z)
    (fresh fresh' : Weights) (ordersA ordersB ordersC : nat -> list Batch)
    (w : world) :
  cuda opt && negb cuda_available = false ->
  py_truthy (resume opt) = false ->
  py_truthy (pretrained opt) = false ->
  epochs_ok opt ordersA 0 [1; 2; 3; 4; 5] = true ->
  ordersB 0%nat = ordersA 0%nat /\ ordersB 1%nat = ordersA 1%nat
  /\ ordersB 2%nat = ordersA 2%nat ->
  ordersC 0%nat = ordersA 3%nat /\ ordersC 1%nat = ordersA 4%nat ->
  let whole := set_nEpochs (set_start_epoch opt 1) 5 in
  let first := set_nEpochs (set_start_epoch opt 1) 3 in
  let second := set_resume (set_nEpochs opt 5) (model_out_path 3) in
  let st3 := epochs_state opt ordersA 0 [1; 2; 3] (SGD opt, new_model fresh) in
  exists fA wA fB wB fC wC,
    main whole cuda_available dA fresh ordersA w = (Ok fA, wA)
    /\ main first cuda_available dB fresh ordersB w = (Ok fB, wB)
    /\ main second cuda_available dC fresh' ordersC wB = (Ok fC, wC)
    /\ fs wB !! model_out_path 3
       = Some (File (Some {| ck_epoch := 3; ck_model := snd st3 |}))
    /\ start_epoch (f_opt fC) = 4
    /\ (f_optimizer fA, f_model fA) = epochs_state opt ordersA 3 [4; 5] st3
    /\ (f_optimizer fC, f_model fC)
       = epochs_state opt ordersA 3 [4; 5] (reinit_optimizer opt st3)
    /\ fs wA !! model_out_path 5
       = Some (File (Some {| ck_epoch := 5; ck_model := f_model fA |}))
    /\ fs wC !! model_out_path 5
       = Some (File (Some {| ck_epoch := 5; ck_model := f_model fC |}))
    /\ (momentum_free -> weights (f_model fC) = weights (f_model fA)).
Proof.
  intros Hcuda Hres Hpre Hok (HB0 & HB1 & HB2) (HC0 & HC1) whole first second st3.
  pose proof Hok as Hoks. cbn [epochs_ok] in Hoks.
  apply andb_prop in Hoks as [Hok1 Hoks]. apply andb_prop in Hoks as [Hok2 Hoks].
  apply andb_prop in Hoks as [Hok3 Hoks]. apply andb_prop in Hoks as [Hok4 Hoks].
  apply andb_prop in Hoks as [Hok5 _].
  (* the uninterrupted run *)
  assert (HA : main whole cuda_available dA fresh ordersA w
               = load_and_train (set_seed whole dA) (new_loader ordersA)
                   (new_model fresh) (say (banner whole dA) w))
    by (apply main_unfold; exact Hcuda).
  unfold load_and_train in HA. unfold bind at 1 in HA.
  rewrite resume_block_none in HA by exact Hres. cbn [fst snd] in HA.
  unfold bind at 1 in HA. rewrite pretrained_block_none in HA by exact Hpre.
  rewrite training_loop_run in HA by exact Hok.
  change (py_range (start_epoch (set_seed whole dA)) (nEpochs (set_seed whole dA) + 1))
    with [1; 2; 3; 4; 5] in HA.
  (* the run of epochs 1 to 3 *)
  assert (HB : main first cuda_available dB fresh ordersB w
               = load_and_train (set_seed first dB) (new_loader ordersB)
                   (new_model fresh) (say (banner first dB) w))
    by (apply main_unfold; exact Hcuda).
  unfold load_and_train in HB. unfold bind at 1 in HB.
  rewrite resume_block_none in HB by exact Hres. cbn [fst snd] in HB.
  unfold bind at 1 in HB. rewrite pretrained_block_none in HB by exact Hpre.
  assert (HokB : epochs_ok (set_seed first dB) ordersB 0 [1; 2; 3] = true).
  { cbn [epochs_ok]. rewrite HB0, HB1, HB2.
    change (epoch_ok opt 1 (ordersA 0%nat) && (epoch_ok opt 2 (ordersA 1%nat)
            && (epoch_ok opt 3 (ordersA 2%nat) && true)) = true).
    now rewrite Hok1, Hok2, Hok3. }
  rewrite training_loop_run in HB by exact HokB.
  change (py_range (start_epoch (set_seed first dB)) (nEpochs (set_seed first dB) + 1))
    with [1; 2; 3] in HB.
  set (wB := after_epochs (set_seed first dB) (order (new_loader ordersB))
               (pass (new_loader ordersB)) [1; 2; 3]
               (SGD (set_seed first dB), new_model fresh)
               (say [LSettingOptimizer; LTraining] (say (banner first dB) w))) in *.
  assert (HfB : fs wB !! model_out_path 3
                = Some (File (Some {| ck_epoch := 3; ck_model := snd st3 |}))).
  { unfold wB. cbn [after_epochs new_loader order pass].
    rewrite after_save_lookup. rewrite HB0, HB1, HB2. reflexivity. }
  (* the resumed run *)
  assert (HC : main second cuda_available dC fresh' ordersC wB
               = load_and_train (set_seed second dC) (new_loader ordersC)
                   (new_model fresh') (say (banner second dC) wB))
    by (apply main_unfold; exact Hcuda).
  unfold load_and_train in HC. unfold bind at 1 in HC.
  rewrite (resume_block_found _ _ _ {| ck_epoch := 3; ck_model := snd st3 |})
    in HC by (reflexivity || exact HfB).
  cbn [fst snd ck_epoch ck_model] in HC.
  unfold bind at 1 in HC. rewrite pretrained_block_none in HC by exact Hpre.
  set (loaded := load_state_dict (new_model fresh') (weights (snd st3))) in *.
  set (optC := set_start_epoch (set_seed second dC) (3 + 1)) in *.
  assert (HokC : epochs_ok optC ordersC 0 [4; 5] = true).
  { cbn [epochs_ok]. rewrite HC0, HC1.
    change (epoch_ok opt 4 (ordersA 3%nat) && (epoch_ok opt 5 (ordersA 4%nat) && true)
            = true).
    now rewrite Hok4, Hok5. }
  rewrite training_loop_run in HC by exact HokC.
  change (py_range (start_epoch optC) (nEpochs optC + 1)) with [4; 5] in HC.
  assert (HstC : epochs_state optC (order (new_loader ordersC))
                   (pass (new_loader ordersC)) [4; 5] (SGD optC, loaded)
                 = epochs_state opt ordersA 3 [4; 5] (reinit_optimizer opt st3)).
  { cbn [epochs_state new_loader order pass]. rewrite HC0, HC1.
    unfold reinit_optimizer.
    rewrite (epoch_state_weights optC 4 _ (SGD optC) loaded (snd st3)) by reflexivity.
    reflexivity. }
  do 6 eexists.
  split; [exact HA|]. split; [exact HB|]. split; [exact HC|].
  split; [exact HfB|]. split; [reflexivity|].
  cbn [f_optimizer f_model]. rewrite HstC.
  split; [now rewrite <- surjective_pairing|].
  split; [now rewrite <- surjective_pairing|].
  split; [cbn [after_epochs]; apply after_save_lookup|].
  split.
  { cbn [after_epochs new_loader order pass]. rewrite after_save_lookup.
    do 3 f_equal. f_equal. rewrite <- HstC.
    cbn [epochs_state new_loader order pass]. reflexivity. }
  intros Hfree.
  change (epochs_state (set_seed whole dA) (order (new_loader ordersA))
            (pass (new_loader ordersA)) [1; 2; 3; 4; 5]
            (SGD (set_seed whole dA), new_model fresh))
    with (epochs_state opt ordersA 3 [4; 5] st3).
  cbn [epochs_state]. unfold reinit_optimizer.
  set (a4 := epoch_state opt 4 (ordersA 3%nat) st3).
  set (c4 := epoch_state opt 4 (ordersA 3%nat) (SGD opt, snd st3)).
  assert (H4 : weights (snd c4) = weights (snd a4)
               /\ param_groups (fst c4) = param_groups (fst a4)).
  { apply epoch_state_momentum_free; [exact Hfree| |reflexivity].
    intros v. unfold st3. cbn [epochs_state]. rewrite !epoch_state_groups.
    cbn [fst SGD param_groups]. now rewrite !set_lr_set_lr. }
  destruct H4 as [H4w H4g].
  apply epoch_state_momentum_free; [exact Hfree| |exact H4w].
  intros v. now rewrite H4g.
Qed.

(** * Further properties of [main.py] *)

(** ** The schedule: when it raises, how it steps *)

Lemma adjust_learning_rate_cases (opt : options) (epoch : Z) :
  let k := epoch / step opt in
  (step opt = 0 /\ adjust_learning_rate opt epoch = Raise ZeroDivisionError)
  \/ (step opt <> 0 /\ (k <= -1024 \/ int_too_large_for_float k = true)
      /\ adjust_learning_rate opt epoch = Raise OverflowError)
  \/ (step opt <> 0 /\ -1024 < k /\ int_too_large_for_float k = false
      /\ exists v, adjust_learning_rate opt epoch = Ok v).
Proof.
  intros k. unfold adjust_learning_rate, py_floordiv, py_pow_half.
  destruct (Z.eqb_spec (step opt) 0) as [H0|H0]; cbn [rbind]; [now left|].
  right. fold k. destruct (int_too_large_for_float k) eqn:Hbig; cbn [rbind].
  { left. auto. }
  destruct (Z.leb_spec k (-1024)); cbn [rbind]; [left; auto|].
  right. repeat split; [exact H0|lia|].
  destruct (Z.leb_spec k 1022); [|destruct (Z.leb_spec k 1074)];
    cbn [rbind]; eauto.
Qed.


Lemma adjust_learning_rate_overflow (opt : options) (epoch : Z) :
  step opt <> 0 -> epoch / step opt <= -1024 ->
  adjust_learning_rate opt epoch = Raise OverflowError.
Proof.
  intros HS Hk.
  destruct (adjust_learning_rate_cases opt epoch)
    as [(H0 & _) | [(_ & _ & H) | (_ & Hk' & _)]];
    [contradiction|exact H|cbv zeta in Hk'; lia].
Qed.

(** X1. [adjust_learning_rate] raises [ZeroDivisionError] exactly when
    the decay step is zero, and [OverflowError] exactly when the step is not
    zero and the exponent [k = epoch // step] is at most [-1024] or too
    large for a float; it raises nothing else, and returns a rate in every
    other case. *)
Theorem X1_schedule_exceptions (opt : options) (epoch : Z) :
  let k := epoch / step opt in
  (adjust_learning_rate opt epoch = Raise ZeroDivisionError <-> step opt = 0)
  /\ (adjust_learning_rate opt epoch = Raise OverflowError <->
      step opt <> 0 /\ (k <= -1024 \/ int_too_large_for_float k = true))
  /\ (forall e, adjust_learning_rate opt epoch = Raise e ->
                e = ZeroDivisionError \/ e = OverflowError)
  /\ (step opt <> 0 -> -1024 < k -> int_too_large_for_float k = false ->
      exists v, adjust_learning_rate opt epoch = Ok v).
Proof.
  intros k.
  destruct (adjust_learning_rate_cases opt epoch)
    as [(H0 & ->) | [(H0 & Hk & ->) | (H0 & Hk & Hbig & v & ->)]];
    cbv zeta in *; subst k.
  - split; [tauto|]. split; [split; [discriminate|tauto]|].
    split; [intros e [= <-]; now left|]. intros H. contradiction.
  - split; [split; [discriminate|intros H; contradiction]|].
    split; [tauto|]. split; [intros e [= <-]; now right|].
    intros _ Hk' Hbig. destruct Hk as [Hk|Hk]; [lia|congruence].
  - split; [split; [discriminate|intros H; contradiction]|].
    split; [split; [discriminate|]|].
    { intros [_ [Hk'|Hk']]; [lia|congruence]. }
    split; [discriminate|]. eauto.
Qed.

Lemma floor_quot_block (S q r : Z) : 0 <= r < S -> (q * S + r) / S = q.
Proof.
  intros Hr. rewrite Z.add_comm, Z.div_add by lia.
  rewrite Z.div_small by lia. lia.
Qed.

(** The rate of an epoch in block [j], for a normal base rate [m * 2^e]:
    the multiplication by [0.5 ** j] is exact. *)
Lemma adjust_learning_rate_exact
    (opt : options) (x : Z) (s : bool) (m : positive) (e j : Z) :
  step opt <> 0 ->
  lr opt = S754_finite s m e -> F64.normal (lr opt) = true ->
  floor_quot x (step opt) = j ->
  -1023 <= j <= 1074 -> -1074 <= e - j <= 971 ->
  adjust_learning_rate opt x = Ok (S754_finite s m (e - j)).
Proof.
  intros HS Hlr Hn Hx Hj Hej.
  assert (Hb : bounded 53 1024 m (e - j) = true).
  { rewrite Hlr in Hn. cbn [F64.normal] in Hn.
    apply Z.eqb_eq in Hn. unfold F64.prec in Hn.
    unfold bounded, canonical_mantissa. rewrite fexp_64, Hn.
    apply andb_true_intro. split; [apply Z.eqb_eq|apply Z.leb_le]; [lia|].
    change (1024 - 53) with 971. lia. }
  unfold adjust_learning_rate.
  rewrite py_floordiv_ok by exact HS. rewrite Hx. cbn [rbind].
  destruct (py_pow_half_range j Hj) as (my & n & Hp & _).
  rewrite Hp. cbn [rbind]. f_equal. rewrite Hlr.
  apply mul_pow_half_exact; [exact Hj|exact Hp|exact Hb].
Qed.

Lemma rate_of_next_block
    (opt : options) (epoch : Z) (s : bool) (m : positive) (e : Z) :
  1 <= step opt ->
  lr opt = S754_finite s m e -> F64.normal (lr opt) = true ->
  let k := floor_quot (epoch - 1) (step opt) in
  -1023 <= k <= 1073 -> -1073 <= e - k <= 971 ->
  adjust_learning_rate opt (epoch - 1) = Ok (S754_finite s m (e - k))
  /\ adjust_learning_rate opt (epoch + step opt - 1)
     = Ok (S754_finite s m (e - k - 1)).
Proof.
  intros HS Hlr Hn k Hk He. split.
  - apply adjust_learning_rate_exact; [lia|exact Hlr|exact Hn|reflexivity|lia|lia].
  - replace (e - k - 1) with (e - (k + 1)) by lia.
    apply adjust_learning_rate_exact; [lia|exact Hlr|exact Hn| |lia|lia].
    unfold k. rewrite !floor_quot_div by lia.
    replace (epoch + step opt - 1) with (epoch - 1 + 1 * step opt) by lia.
    now rewrite Z.div_add by lia.
Qed.

(** X2. With a decay step [S >= 1] the rate is the same for the [S]
    epochs of a block, and for a normal base rate [m * 2^e] it is exactly
    halved from one block to the next, as long as the halved rate is still a
    double with the same significand. *)
Theorem X2_rate_halves_every_step
    (opt : options) (epoch : Z) (s : bool) (m : positive) (e : Z) :
  1 <= step opt ->
  lr opt = S754_finite s m e ->
  F64.valid (lr opt) = true -> F64.normal (lr opt) = true ->
  let k := floor_quot (epoch - 1) (step opt) in
  -1023 <= k <= 1073 -> -1073 <= e - k <= 971 ->
  adjust_learning_rate opt (epoch - 1) = Ok (S754_finite s m (e - k))
  /\ adjust_learning_rate opt (epoch + step opt - 1)
     = Ok (F64.halve (S754_finite s m (e - k)))
  /\ (forall q r, 0 <= r < step opt ->
        adjust_learning_rate opt (q * step opt + r)
        = adjust_learning_rate opt (q * step opt)).
Proof.
  intros HS Hlr Hv Hn k Hk He.
  destruct (rate_of_next_block opt epoch s m e HS Hlr Hn Hk He) as [H1 H2].
  split; [exact H1|]. split; [exact H2|].
  intros q r Hr. unfold adjust_learning_rate, py_floordiv.
  destruct (Z.eqb_spec (step opt) 0); [lia|].
  rewrite floor_quot_block by exact Hr.
  now rewrite Z.div_mul by lia.
Qed.

(** X3. An epoch number from [1 - S] to [0] (as [--start-epoch 0] gives)
    falls into the block before the first: its rate is twice the base rate,
    for a normal base rate that can be doubled the same significand one
    binade up. *)
Theorem X3_rate_doubles_below_epoch_one (opt : options) (epoch : Z) :
  1 <= step opt -> 1 - step opt <= epoch <= 0 ->
  adjust_learning_rate opt (epoch - 1) = Ok (py_fmul (lr opt) F64.two)
  /\ (forall s m e,
        lr opt = S754_finite s m e ->
        F64.valid (lr opt) = true -> F64.normal (lr opt) = true -> e <= 970 ->
        adjust_learning_rate opt (epoch - 1) = Ok (S754_finite s m (e + 1))).
Proof.
  intros HS He.
  assert (H : adjust_learning_rate opt (epoch - 1) = Ok (py_fmul (lr opt) F64.two)).
  { unfold adjust_learning_rate, py_floordiv.
    destruct (Z.eqb_spec (step opt) 0); [lia|].
    replace (epoch - 1) with (-1 * step opt + (epoch - 1 + step opt)) by lia.
    rewrite floor_quot_block by lia. reflexivity. }
  split; [exact H|]. intros s m e Hlr Hv Hn He'.
  rewrite H, Hlr. f_equal. rewrite Hlr in Hv, Hn. now apply double_normal.
Qed.

(** ** [save_checkpoint]: what it touches *)


(** ** The checkpoints a run leaves *)

Lemma after_train_fs opt epoch batches st w :
  fs (after_train opt epoch batches st w) = fs w.
Proof. reflexivity. Qed.

Lemma after_epochs_frame opt orders epochs :
  forall k st w p,
    (forall e, In e epochs -> p <> model_out_path e) ->
    p <> "model/" ->
    fs (after_epochs opt orders k epochs st w) !! p = fs w !! p.
Proof.
  induction epochs as [|epoch rest IH]; intros k st w p Hp Hd; [reflexivity|].
  cbn [after_epochs]. rewrite IH by (auto using in_cons).
  unfold after_save. cbn [fs]. rewrite after_train_fs.
  rewrite lookup_insert_ne by (apply not_eq_sym, Hp; now left).
  destruct (fs w !! "model/"); [reflexivity|].
  now rewrite lookup_insert_ne by congruence.
Qed.

Lemma after_epochs_files opt orders epochs :
  List.NoDup epochs ->
  forall k st w i e,
    nth_error epochs i = Some e ->
    fs (after_epochs opt orders k epochs st w) !! model_out_path e
    = Some (File (Some {| ck_epoch := e;
                          ck_model := snd (epochs_state opt orders k
                                             (firstn (S i) epochs) st) |})).
Proof.
  induction epochs as [|epoch rest IH]; intros Hnd k st w i e Hi.
  - destruct i; discriminate.
  - apply List.NoDup_cons_iff in Hnd as [Hnotin Hnd].
    cbn [after_epochs]. destruct i as [|i]; cbn [nth_error] in Hi.
    + injection Hi as <-.
      rewrite after_epochs_frame.
      * rewrite after_save_lookup. reflexivity.
      * intros e He Heq. apply model_out_path_inj in Heq. congruence.
      * apply model_out_path_not_dir.
    + cbn [firstn epochs_state]. now apply IH.
Qed.

Lemma py_range_NoDup a b : List.NoDup (py_range a b).
Proof.
  unfold py_range. apply Injective_map_NoDup; [|apply seq_NoDup].
  intros x y H. lia.
Qed.

Lemma py_range_length a b : length (py_range a b) = Z.to_nat (b - a).
Proof. unfold py_range. now rewrite length_map, length_seq. Qed.

Lemma py_range_nth a b i :
  (i < Z.to_nat (b - a))%nat -> nth_error (py_range a b) i = Some (a + Z.of_nat i).
Proof.
  intros Hi. unfold py_range. rewrite nth_error_map.
  rewrite nth_error_seq. destruct (Nat.ltb_spec i (Z.to_nat (b - a))); [|lia].
  reflexivity.
Qed.

(** X5. After a loop over distinct epochs that all go through, the file
    of each epoch holds that epoch's number and the model as it was right
    after that epoch (not a later one), and every path that is neither such
    a file nor ["model/"] is as before; the epochs [range(a, b)] of [main] are
    distinct, [a], [a + 1], ... in this order. *)
Theorem X5_checkpoints_of_a_run
    (opt : options) (epochs : list Z) (loader : DataLoader)
    (optimizer : Optimizer) (model : Model) (w : world) :
  epochs_ok opt (order loader) (pass loader) epochs = true ->
  param_groups optimizer <> [] ->
  List.NoDup epochs ->
  exists st' w',
    epochs_loop opt epochs (loader, optimizer, model) w = (Ok st', w')
    /\ (forall i e,
          nth_error epochs i = Some e ->
          fs w' !! model_out_path e
          = Some (File (Some {| ck_epoch := e;
                                ck_model := snd (epochs_state opt (order loader)
                                                   (pass loader)
                                                   (firstn (S i) epochs)
                                                   (optimizer, model)) |})))
    /\ (forall p,
          (forall e, In e epochs -> p <> model_out_path e) -> p <> "model/" ->
          fs w' !! p = fs w !! p)
    /\ (forall a b, List.NoDup (py_range a b)
                    /\ length (py_range a b) = Z.to_nat (b - a)
                    /\ forall i, (i < Z.to_nat (b - a))%nat ->
                         nth_error (py_range a b) i = Some (a + Z.of_nat i)).
Proof.
  intros Hok Hg Hnd. do 2 eexists.
  split; [apply epochs_loop_run; assumption|].
  split; [intros i e Hi; now apply after_epochs_files|].
  split; [intros p Hp Hd; now apply after_epochs_frame|].
  intros a b. split; [apply py_range_NoDup|].
  split; [apply py_range_length|apply py_range_nth].
Qed.

(** ** An epoch that raises *)

Lemma say_nil w : say [] w = w.
Proof. unfold say. rewrite app_nil_r. apply world_eta. Qed.





(** ** Runs without an epoch, and the pretrained weights alone *)

Lemma py_range_empty a b : b <= a -> py_range a b = [].
Proof. intros H. unfold py_range. now replace (Z.to_nat (b - a)) with 0%nat by lia. Qed.

Lemma saved_paths_app ls1 ls2 :
  saved_paths (ls1 ++ ls2) = saved_paths ls1 ++ saved_paths ls2.
Proof. unfold saved_paths. apply flat_map_app. Qed.

Lemma training_loop_no_epoch opt loader model w :
  nEpochs opt < start_epoch opt ->
  training_loop opt loader model w
  = (Ok {| f_opt := opt; f_loader := loader; f_optimizer := SGD opt;
           f_model := model |},
     say [LSettingOptimizer; LTraining] w).
Proof.
  intros H. unfold training_loop.
  unfold bind at 1. rewrite print_say.
  unfold bind at 1. rewrite print_say, say_say.
  rewrite py_range_empty by lia. reflexivity.
Qed.

(** X7. Resuming from a checkpoint whose epoch is the last one asked for
    (or a later one) trains nothing: [main] returns the weights of the
    checkpoint with a new optimizer, no pass over the loader is made, no
    collaborator is called, no file is written and no checkpoint line is
    printed. *)
Theorem X7_resume_after_last_epoch
    (opt : options) (cuda_available : bool) (drawn : Z) (fresh : Weights)
    (orders : nat -> list Batch) (w : world) (ck : checkpoint) :
  cuda opt && negb cuda_available = false ->
  py_truthy (resume opt) = true ->
  fs w !! resume opt = Some (File (Some ck)) ->
  py_truthy (pretrained opt) = false ->
  nEpochs opt <= ck_epoch ck ->
  exists f w',
    main opt cuda_available drawn fresh orders w = (Ok f, w')
    /\ weights (f_model f) = weights (ck_model ck)
    /\ start_epoch (f_opt f) = ck_epoch ck + 1
    /\ f_optimizer f = SGD opt
    /\ pass (f_loader f) = 0%nat
    /\ fs w' = fs w
    /\ calls w' = calls w
    /\ saved_paths (stdout w') = saved_paths (stdout w).
Proof.
  intros Hcuda Hr Hf Hp Hn. do 2 eexists. split.
  - rewrite main_unfold by exact Hcuda. unfold bind at 1.
    rewrite (resume_block_found _ _ _ ck) by assumption. cbn [fst snd].
    unfold bind at 1. rewrite pretrained_block_none by exact Hp.
    apply training_loop_no_epoch. cbn. lia.
  - cbn [f_model f_opt f_optimizer f_loader say fs calls stdout].
    repeat split.
    rewrite <- !app_assoc, saved_paths_app. cbn. now rewrite app_nil_r.
Qed.

(** X8. With a pretrained path alone that names a checkpoint file, [main]
    goes into the training loop with the weights of the file and the start
    epoch of the options: the epoch stored in the file is not used. *)
Theorem X8_pretrained_keeps_start_epoch
    (opt : options) (cuda_available : bool) (drawn : Z) (fresh : Weights)
    (orders : nat -> list Batch) (w : world) (p : checkpoint) :
  cuda opt && negb cuda_available = false ->
  py_truthy (resume opt) = false ->
  py_truthy (pretrained opt) = true ->
  fs w !! pretrained opt = Some (File (Some p)) ->
  let model := load_state_dict (new_model fresh) (weights (ck_model p)) in
  main opt cuda_available drawn fresh orders w
  = training_loop (set_seed opt drawn) (new_loader orders) model
      (say [LLoadModel (pretrained opt)] (say (banner opt drawn) w))
  /\ weights model = weights (ck_model p)
  /\ start_epoch (set_seed opt drawn) = start_epoch opt
  /\ (forall q, weights (ck_model q) = weights (ck_model p) ->
        load_state_dict (new_model fresh) (weights (ck_model q)) = model).
Proof.
  intros Hcuda Hr Hp Hf model. split; [|split; [reflexivity|split; [reflexivity|]]].
  - rewrite main_unfold by exact Hcuda. unfold bind at 1.
    rewrite resume_block_none by exact Hr. cbn [fst snd].
    unfold bind at 1.
    now rewrite (pretrained_block_found _ _ _ p) by assumption.
  - intros q Hq. unfold model. now rewrite Hq.
Qed.

(** ** What the loop does to the optimizer, and the calls of an epoch *)

Lemma map_pg_lr_set_lr v gs : map pg_lr (map (set_lr v) gs) = repeat v (length gs).
Proof. induction gs as [|g gs IH]; cbn; [reflexivity|now rewrite IH]. Qed.

Lemma epochs_state_last opt orders epochs :
  epochs <> [] ->
  forall k st,
    param_groups (fst (epochs_state opt orders k epochs st))
    = map (set_lr (rate_of opt (List.last epochs 0))) (param_groups (fst st)).
Proof.
  induction epochs as [|epoch rest IH]; intros Hne k st; [congruence|].
  cbn [epochs_state]. destruct rest as [|e2 rest].
  - cbn [epochs_state List.last]. apply epoch_state_groups.
  - rewrite IH by discriminate. rewrite epoch_state_groups, set_lr_set_lr.
    reflexivity.
Qed.

Lemma epochs_state_fields opt orders epochs :
  forall k st,
    map pg_momentum (param_groups (fst (epochs_state opt orders k epochs st)))
    = map pg_momentum (param_groups (fst st))
    /\ map pg_weight_decay (param_groups (fst (epochs_state opt orders k epochs st)))
       = map pg_weight_decay (param_groups (fst st)).
Proof.
  induction epochs as [|epoch rest IH]; intros k st; [now split|].
  cbn [epochs_state]. destruct (IH (S k) (epoch_state opt epoch (orders k) st))
    as [-> ->].
  rewrite epoch_state_groups, !map_map. now split.
Qed.

(** X9. The loop over the epochs changes nothing in the optimizer's
    groups but the rate: their number, momentum and weight decay stay as
    they were, after the last epoch every group holds that epoch's rate, and
    the loader has been passed over once per epoch. *)
Theorem X9_groups_keep_momentum_and_decay
    (opt : options) (epochs : list Z) (loader : DataLoader)
    (optimizer : Optimizer) (model : Model) (w : world) :
  epochs_ok opt (order loader) (pass loader) epochs = true ->
  param_groups optimizer <> [] ->
  exists loader' optimizer' model' w',
    epochs_loop opt epochs (loader, optimizer, model) w
    = (Ok (loader', optimizer', model'), w')
    /\ map pg_momentum (param_groups optimizer')
       = map pg_momentum (param_groups optimizer)
    /\ map pg_weight_decay (param_groups optimizer')
       = map pg_weight_decay (param_groups optimizer)
    /\ length (param_groups optimizer') = length (param_groups optimizer)
    /\ (epochs <> [] ->
        map pg_lr (param_groups optimizer')
        = repeat (rate_of opt (List.last epochs 0)) (length (param_groups optimizer)))
    /\ pass loader' = (length epochs + pass loader)%nat
    /\ order loader' = order loader.
Proof.
  intros Hok Hg. do 4 eexists.
  split; [apply epochs_loop_run; assumption|].
  destruct (epochs_state_fields opt (order loader) epochs (pass loader)
              (optimizer, model)) as [Hm Hd]. cbn [fst] in Hm, Hd.
  split; [exact Hm|]. split; [exact Hd|].
  split; [rewrite <- (length_map pg_momentum), Hm; apply length_map|].
  split; [|split; reflexivity].
  intros Hne. rewrite epochs_state_last by exact Hne.
  apply map_pg_lr_set_lr.
Qed.




(** ** The exceptions of [main] *)






(** ** The console of a run, and the threshold from block to block *)

Lemma saved_paths_progress ls :
  Forall (fun l => exists e i t loss, l = LProgress e i t loss) ls ->
  saved_paths ls = [].
Proof.
  induction 1 as [|l ls (e & i & t & loss & ->) _ IH]; [reflexivity|exact IH].
Qed.

Lemma after_epochs_saved opt orders epochs :
  forall k st w,
    saved_paths (stdout (after_epochs opt orders k epochs st w))
    = saved_paths (stdout w) ++ map model_out_path epochs.
Proof.
  induction epochs as [|epoch rest IH]; intros k st w.
  - cbn. now rewrite app_nil_r.
  - cbn [after_epochs map]. rewrite IH.
    unfold after_save, after_train, epoch_lines. cbn [stdout].
    rewrite !saved_paths_app. cbn [saved_paths flat_map app].
    fold (saved_paths (pass_lines (threshold_of opt (rate_of opt epoch)) epoch
            (Z.of_nat (length (orders k))) 1 (orders k)
            (with_rate (rate_of opt epoch) (fst st), model_train (snd st)))).
    rewrite (saved_paths_progress
               (pass_lines (threshold_of opt (rate_of opt epoch)) epoch
                  (Z.of_nat (length (orders k))) 1 (orders k)
                  (with_rate (rate_of opt epoch) (fst st), model_train (snd st)))).
    + cbn [app]. now rewrite <- !app_assoc.
    + eapply Forall_impl; [apply pass_lines_shape|].
      intros l (i & loss & ->). now eexists _, _, _, _.
Qed.

(** X12. A training loop in which every epoch goes through prints one
    "Checkpoint saved" line per epoch, for the epochs [start_epoch],
    [start_epoch + 1], ..., [nEpochs] in this order and no other, and ends
    with the optimizer and model of the last epoch. *)
Theorem X12_one_checkpoint_line_per_epoch
    (opt : options) (loader : DataLoader) (model : Model) (w : world) :
  let epochs := py_range (start_epoch opt) (nEpochs opt + 1) in
  epochs_ok opt (order loader) (pass loader) epochs = true ->
  exists f w',
    training_loop opt loader model w = (Ok f, w')
    /\ saved_paths (stdout w') = saved_paths (stdout w) ++ map model_out_path epochs
    /\ length epochs = Z.to_nat (nEpochs opt + 1 - start_epoch opt)
    /\ (forall i, (i < length epochs)%nat ->
          nth_error epochs i = Some (start_epoch opt + Z.of_nat i))
    /\ (f_optimizer f, f_model f)
       = epochs_state opt (order loader) (pass loader) epochs (SGD opt, model).
Proof.
  intros epochs Hok. do 2 eexists.
  split; [apply training_loop_run; exact Hok|].
  split.
  - fold epochs. rewrite after_epochs_saved. cbn [say stdout].
    rewrite saved_paths_app. cbn. now rewrite app_nil_r.
  - split; [apply py_range_length|]. split.
    + intros i Hi. apply py_range_nth. unfold epochs in Hi.
      now rewrite py_range_length in Hi.
    + cbn [f_optimizer f_model]. now rewrite <- surjective_pairing.
Qed.

(** X13. From one block of [S] epochs to the next the clip threshold
    doubles: for a normal base rate and a clip value whose quotient by the
    next block's rate is finite and away from the subnormal range, the
    threshold of an epoch is exactly half the threshold [S] epochs later. *)
Theorem X13_threshold_doubles_every_step
    (opt : options) (epoch : Z) (s sc : bool) (m mc : positive) (e ec : Z) :
  1 <= step opt ->
  lr opt = S754_finite s m e ->
  F64.valid (lr opt) = true -> F64.normal (lr opt) = true ->
  clip opt = S754_finite sc mc ec ->
  let k := floor_quot (epoch - 1) (step opt) in
  let r1 := S754_finite s m (e - k) in
  let r2 := S754_finite s m (e - k - 1) in
  -1023 <= k <= 1073 -> -1073 <= e - k <= 971 ->
  -967 <= Z.pos (digits2_pos mc) + ec - (Z.pos (digits2_pos m) + (e - k - 1)) ->
  -1020 <= ec - (e - k - 1) ->
  (forall s', F64.div (clip opt) r2 <> S754_infinity s') ->
  adjust_learning_rate opt (epoch - 1) = Ok r1
  /\ adjust_learning_rate opt (epoch + step opt - 1) = Ok r2
  /\ py_fdiv (clip opt) r1 = Ok (F64.halve (F64.div (clip opt) r2))
  /\ py_fdiv (clip opt) r2 = Ok (F64.div (clip opt) r2)
  /\ (F64.to_Q (F64.div (clip opt) r1) == F64.to_Q (F64.div (clip opt) r2) / 2)%Q.
Proof.
  intros HS Hlr Hv Hn Hc k r1 r2 Hk He HX Hec Hfin.
  destruct (rate_of_next_block opt epoch s m e HS Hlr Hn Hk He) as [H1 H2].
  split; [exact H1|]. split; [exact H2|].
  assert (Hd : F64.div (clip opt) r1 = F64.halve (F64.div (clip opt) r2)).
  { unfold r1, r2. rewrite Hc in *.
    replace (e - k) with (e - k - 1 + 1) at 1 by lia.
    now apply div_double. }
  split; [unfold py_fdiv; cbn [F64.is_zero r1]; now rewrite Hd|].
  split; [reflexivity|]. rewrite Hd. apply halve_value.
Qed.

(** X14. A negative decay step makes the exponent negative: once
    [epoch - 1 >= 1024 * |S|] the power [0.5 ** k] is out of range, the
    schedule raises [OverflowError], and [train] raises it before it prints,
    calls or writes anything. *)
Theorem X14_negative_step_overflows
    (opt : options) (epoch : Z) (loader : DataLoader) (optimizer : Optimizer)
    (model : Model) (w : world) :
  step opt < 0 -> 1024 * - step opt <= epoch - 1 ->
  adjust_learning_rate opt (epoch - 1) = Raise OverflowError
  /\ train opt loader optimizer model epoch w = (Raise OverflowError, w).
Proof.
  intros HS He.
  assert (H : adjust_learning_rate opt (epoch - 1) = Raise OverflowError).
  { apply adjust_learning_rate_overflow; [lia|].
    assert (Hq : (epoch - 1) / step opt = - ((epoch - 1) / - step opt)
                 \/ (epoch - 1) / step opt = - ((epoch - 1) / - step opt) - 1).
    { pose proof (Z.div_mod (epoch - 1) (step opt) ltac:(lia)).
      pose proof (Z.mod_neg_bound (epoch - 1) (step opt) ltac:(lia)).
      pose proof (Z.div_mod (epoch - 1) (- step opt) ltac:(lia)).
      pose proof (Z.mod_pos_bound (epoch - 1) (- step opt) ltac:(lia)).
      nia. }
    assert (1024 <= (epoch - 1) / - step opt)
      by (apply Z.div_le_lower_bound; lia).
    lia. }
  split; [exact H|]. now apply train_raise_rate.
Qed.

(** ** What a run adds, and what it does not read *)

Lemma appended_nil w : appended [] [] w = w.
Proof. unfold appended. rewrite !app_nil_r. apply world_eta. Qed.

Lemma appended_appended ls1 cs1 ls2 cs2 w :
  appended ls2 cs2 (appended ls1 cs1 w) = appended (ls1 ++ ls2) (cs1 ++ cs2) w.
Proof. unfold appended. cbn [fs stdout calls]. now rewrite !app_assoc. Qed.

Lemma say_appended ls w : say ls w = appended ls [] w.
Proof. unfold say, appended. now rewrite app_nil_r. Qed.

(** Whatever the outcome, [train] leaves the files alone; its outcome, the
    lines it prints and the calls it makes do not depend on the world. *)
Lemma train_shape opt loader optimizer model epoch :
  exists r ls cs,
    (forall w, train opt loader optimizer model epoch w = (r, appended ls cs w))
    /\ saved_paths ls = [].
Proof.
  destruct (adjust_learning_rate opt (epoch - 1)) as [v|e] eqn:Hv.
  2:{ exists (Raise e), [], []. split; [|reflexivity].
      intros w. rewrite appended_nil. now apply train_raise_rate. }
  destruct (param_groups optimizer) as [|g gs] eqn:Hg.
  { exists (Raise IndexError), [], []. split; [|reflexivity].
    intros w. rewrite appended_nil.
    unfold train, lr_policy. rewrite Hv. cbn [rbind lift bind param_groups].
    rewrite Hg. reflexivity. }
  assert (Hne : param_groups optimizer <> []) by congruence.
  destruct (epoch_ok opt epoch (order loader (pass loader))) eqn:Hok.
  - exists (Ok (advance loader 1,
                fst (epoch_state opt epoch (order loader (pass loader))
                       (optimizer, model)),
                snd (epoch_state opt epoch (order loader (pass loader))
                       (optimizer, model)))),
      (epoch_lines opt epoch (order loader (pass loader)) (optimizer, model)),
      (epoch_calls opt epoch (order loader (pass loader)) (optimizer, model)).
    split; [intros w; now rewrite train_run by assumption|].
    unfold epoch_lines. cbv zeta.
    match goal with |- saved_paths (_ :: ?t) = _ => change (saved_paths t = []) end.
    apply saved_paths_progress.
    eapply Forall_impl; [apply pass_lines_shape|].
    intros l (i & loss & ->). now eexists _, _, _, _.
  - unfold epoch_ok in Hok. rewrite Hv in Hok.
    destruct (order loader (pass loader)) as [|b rest] eqn:Hb; [discriminate|].
    apply negb_false_iff in Hok.
    exists (Raise ZeroDivisionError), [LEpochLr epoch v], [].
    split; [|reflexivity]. intros w.
    rewrite (train_raise_zero _ _ _ _ _ _ v b rest) by assumption.
    unfold appended. now rewrite app_nil_r.
Qed.

Lemma epochs_loop_cons_ok opt epoch rest loader optimizer model w st' w1 :
  train opt loader optimizer model epoch w = (Ok st', w1) ->
  epochs_loop opt (epoch :: rest) (loader, optimizer, model) w
  = epochs_loop opt rest st' (after_save (snd st') epoch w1).
Proof.
  intros Ht. cbn [epochs_loop]. unfold bind at 1. rewrite Ht.
  unfold bind at 1. now rewrite save_checkpoint_run.
Qed.

Lemma epochs_loop_cons_raise opt epoch rest loader optimizer model w e w1 :
  train opt loader optimizer model epoch w = (Raise e, w1) ->
  epochs_loop opt (epoch :: rest) (loader, optimizer, model) w = (Raise e, w1).
Proof.
  intros Ht. cbn [epochs_loop]. unfold bind at 1. now rewrite Ht.
Qed.


Lemma only_adds_refl w : only_adds w w.
Proof.
  split; [exists []; now rewrite app_nil_r|].
  split; [exists []; now rewrite app_nil_r|]. auto.
Qed.

Lemma only_adds_trans w1 w2 w3 :
  only_adds w1 w2 -> only_adds w2 w3 -> only_adds w1 w3.
Proof.
  intros ([ls1 Hs1] & [cs1 Hc1] & Hk1 & Hn1 & Hp1)
         ([ls2 Hs2] & [cs2 Hc2] & Hk2 & Hn2 & Hp2).
  split; [exists (ls1 ++ ls2); now rewrite Hs2, Hs1, app_assoc|].
  split; [exists (cs1 ++ cs2); now rewrite Hc2, Hc1, app_assoc|].
  split; [auto|]. split; auto.
Qed.

Lemma only_adds_appended ls cs w : only_adds w (appended ls cs w).
Proof.
  split; [now exists ls|]. split; [now exists cs|]. cbn [appended fs]. auto.
Qed.

Lemma only_adds_say ls w : only_adds w (say ls w).
Proof. rewrite say_appended. apply only_adds_appended. Qed.

Lemma only_adds_after_save model epoch w : only_adds w (after_save model epoch w).
Proof.
  unfold after_save.
  split; [now eexists|]. split; [exists []; cbn; now rewrite app_nil_r|].
  cbn [fs]. split; [|split].
  - intros p n Hp Hne. rewrite lookup_insert_ne by (apply not_eq_sym, Hne).
    destruct (fs w !! "model/") eqn:Hd; [exact Hp|].
    rewrite lookup_insert_ne by congruence. exact Hp.
  - intros p Hp Hne Hd. rewrite lookup_insert_ne by (apply not_eq_sym, Hne).
    destruct (fs w !! "model/"); [exact Hp|].
    rewrite lookup_insert_ne by congruence. exact Hp.
  - intros p Hp. destruct (decide (p = model_out_path epoch)) as [->|Hne].
    + rewrite lookup_insert_eq. now eexists.
    + rewrite lookup_insert_ne by congruence.
      destruct (fs w !! "model/") eqn:Hd; [exact Hp|].
      rewrite lookup_insert_ne; [exact Hp|]. intros <-. rewrite Hd in Hp.
      now destruct Hp.
Qed.

Lemma epochs_loop_only_adds opt epochs :
  forall st w, only_adds w (snd (epochs_loop opt epochs st w)).
Proof.
  induction epochs as [|epoch rest IH]; intros [[loader optimizer] model] w.
  - apply only_adds_refl.
  - destruct (train_shape opt loader optimizer model epoch)
      as (r & ls1 & cs1 & Ht & _).
    destruct r as [st'|e].
    2:{ rewrite (epochs_loop_cons_raise _ _ _ _ _ _ _ _ _ (Ht w)).
        apply only_adds_appended. }
    rewrite (epochs_loop_cons_ok _ _ _ _ _ _ _ _ _ (Ht w)).
    eapply only_adds_trans; [apply only_adds_appended|].
    eapply only_adds_trans; [apply only_adds_after_save|apply IH].
Qed.

Lemma training_loop_only_adds opt loader model w :
  only_adds w (snd (training_loop opt loader model w)).
Proof.
  unfold training_loop. unfold bind at 1. rewrite print_say.
  unfold bind at 1. rewrite print_say, say_say, say_appended. unfold bind.
  pose proof (epochs_loop_only_adds opt
                (py_range (start_epoch opt) (nEpochs opt + 1))
                (loader, SGD opt, model)
                (appended [LSettingOptimizer; LTraining] [] w)) as H.
  destruct (epochs_loop opt _ _ _) as [[st|e] w1]; cbn [snd] in *;
    (eapply only_adds_trans; [apply only_adds_appended|exact H]).
Qed.

Lemma resume_block_says opt model w :
  exists ls, snd (resume_block opt model w) = say ls w /\ saved_paths ls = [].
Proof.
  unfold resume_block, bind, os_path_isfile, torch_load, print, ret.
  destruct (py_truthy (resume opt)); [|exists []; now rewrite say_nil].
  destruct (fs w !! resume opt) as [[|[ck|]]|] eqn:Hl; cbn [fs];
    rewrite ?Hl; now eexists [_].
Qed.

Lemma pretrained_block_says opt model w :
  exists ls, snd (pretrained_block opt model w) = say ls w /\ saved_paths ls = [].
Proof.
  unfold pretrained_block, bind, os_path_isfile, torch_load, print, ret.
  destruct (py_truthy (pretrained opt)); [|exists []; now rewrite say_nil].
  destruct (fs w !! pretrained opt) as [[|[ck|]]|] eqn:Hl; cbn [fs];
    rewrite ?Hl; now eexists [_].
Qed.

Lemma main_only_adds opt cuda_available drawn fresh orders w :
  only_adds w (snd (main opt cuda_available drawn fresh orders w)).
Proof.
  destruct (cuda opt && negb cuda_available) eqn:Hcuda.
  { rewrite main_no_gpu by exact Hcuda. apply only_adds_say. }
  rewrite main_unfold by exact Hcuda.
  apply only_adds_trans with (w2 := say (banner opt drawn) w);
    [apply only_adds_say|].
  set (w0 := say (banner opt drawn) w). unfold bind at 1.
  destruct (resume_block_says (set_seed opt drawn) (new_model fresh) w0)
    as (ls1 & H1 & _).
  destruct (resume_block _ _ w0) as [[om|e] w1]; cbn [snd] in H1; subst w1;
    [|apply only_adds_say].
  apply only_adds_trans with (w2 := say ls1 w0); [apply only_adds_say|].
  unfold bind at 1.
  destruct (pretrained_block_says (fst om) (snd om) (say ls1 w0)) as (ls2 & H2 & _).
  destruct (pretrained_block _ _ _) as [[m|e] w2]; cbn [snd] in H2; subst w2;
    [|apply only_adds_say].
  apply only_adds_trans with (w2 := say ls2 (say ls1 w0));
    [apply only_adds_say|apply training_loop_only_adds].
Qed.

(** X15. Whatever its outcome, a run of [main] takes nothing away: the
    console and the trace of calls are extended, every path that was there
    is still there, a path that is not named like a checkpoint holds what it
    held (so the data set, and a resume or pretrained file of another name,
    are never written), and no path appears but checkpoints and ["model/"]. *)
Theorem X15_main_only_adds
    (opt : options) (cuda_available : bool) (drawn : Z) (fresh : Weights)
    (orders : nat -> list Batch) (w : world) :
  let w' := snd (main opt cuda_available drawn fresh orders w) in
  (exists ls, stdout w' = stdout w ++ ls)
  /\ (exists cs, calls w' = calls w ++ cs)
  /\ (forall p n, fs w !! p = Some n -> (forall e, p <> model_out_path e) ->
                  fs w' !! p = Some n)
  /\ (forall p, fs w !! p = None -> (forall e, p <> model_out_path e) ->
                p <> "model/" -> fs w' !! p = None)
  /\ (forall p, is_Some (fs w !! p) -> is_Some (fs w' !! p)).
Proof.
  intros w'. exact (main_only_adds opt cuda_available drawn fresh orders w).
Qed.


(** ** The console does not report a checkpoint that is not there *)

Lemma saves_kept_refl w : saves_kept w w.
Proof.
  split; [exists []; split; [now rewrite app_nil_r|intros p []]|].
  intros e m H. now exists m.
Qed.

Lemma saves_kept_trans w1 w2 w3 :
  saves_kept w1 w2 -> saves_kept w2 w3 -> saves_kept w1 w3.
Proof.
  intros [(ls1 & Hs1 & Hp1) Hk1] [(ls2 & Hs2 & Hp2) Hk2]. split.
  - exists (ls1 ++ ls2). split; [now rewrite Hs2, Hs1, app_assoc|].
    intros p Hp. rewrite saved_paths_app in Hp.
    apply in_app_or in Hp as [Hp|Hp]; [|now apply Hp2].
    destruct (Hp1 p Hp) as (e & m & -> & Hf).
    destruct (Hk2 e m Hf) as [m' Hf']. now exists e, m'.
  - intros e m Hf. destruct (Hk1 e m Hf) as [m' Hf']. now apply (Hk2 e m').
Qed.

Lemma saves_kept_appended ls cs w :
  saved_paths ls = [] -> saves_kept w (appended ls cs w).
Proof.
  intros Hls. split.
  - exists ls. split; [reflexivity|]. rewrite Hls. intros p [].
  - intros e m Hf. now exists m.
Qed.

Lemma saves_kept_say ls w : saved_paths ls = [] -> saves_kept w (say ls w).
Proof. rewrite say_appended. apply saves_kept_appended. Qed.

Lemma saves_kept_after_save model epoch w :
  saves_kept w (after_save model epoch w).
Proof.
  split.
  - exists [LCheckpointSaved (model_out_path epoch)]. split; [reflexivity|].
    intros p [<-|[]]. exists epoch, model. split; [reflexivity|].
    apply after_save_lookup.
  - intros e m Hf. destruct (Z.eq_dec e epoch) as [->|Hne].
    + exists model. apply after_save_lookup.
    + exists m. now rewrite after_save_lookup_ne.
Qed.

Lemma epochs_loop_saves_kept opt epochs :
  forall st w, saves_kept w (snd (epochs_loop opt epochs st w)).
Proof.
  induction epochs as [|epoch rest IH]; intros [[loader optimizer] model] w.
  - apply saves_kept_refl.
  - destruct (train_shape opt loader optimizer model epoch)
      as (r & ls1 & cs1 & Ht & Hsv).
    destruct r as [st'|e].
    2:{ rewrite (epochs_loop_cons_raise _ _ _ _ _ _ _ _ _ (Ht w)).
        now apply saves_kept_appended. }
    rewrite (epochs_loop_cons_ok _ _ _ _ _ _ _ _ _ (Ht w)).
    apply saves_kept_trans with (w2 := appended ls1 cs1 w);
      [now apply saves_kept_appended|].
    eapply saves_kept_trans; [apply saves_kept_after_save|apply IH].
Qed.

Lemma training_loop_saves_kept opt loader model w :
  saves_kept w (snd (training_loop opt loader model w)).
Proof.
  unfold training_loop. unfold bind at 1. rewrite print_say.
  unfold bind at 1. rewrite print_say, say_say. unfold bind.
  pose proof (epochs_loop_saves_kept opt
                (py_range (start_epoch opt) (nEpochs opt + 1))
                (loader, SGD opt, model)
                (say ([LSettingOptimizer] ++ [LTraining]) w)) as H.
  destruct (epochs_loop opt _ _ _) as [[st|e] w1]; cbn [snd] in *;
    (apply saves_kept_trans
       with (w2 := say ([LSettingOptimizer] ++ [LTraining]) w);
     [now apply saves_kept_say|exact H]).
Qed.

Lemma main_saves_kept opt cuda_available drawn fresh orders w :
  saves_kept w (snd (main opt cuda_available drawn fresh orders w)).
Proof.
  destruct (cuda opt && negb cuda_available) eqn:Hcuda.
  { rewrite main_no_gpu by exact Hcuda. now apply saves_kept_say. }
  rewrite main_unfold by exact Hcuda.
  apply saves_kept_trans with (w2 := say (banner opt drawn) w);
    [now apply saves_kept_say|].
  set (w0 := say (banner opt drawn) w). unfold bind at 1.
  destruct (resume_block_says (set_seed opt drawn) (new_model fresh) w0)
    as (ls1 & H1 & Hs1).
  destruct (resume_block _ _ w0) as [[om|e] w1]; cbn [snd] in H1; subst w1;
    [|now apply saves_kept_say].
  apply saves_kept_trans with (w2 := say ls1 w0); [now apply saves_kept_say|].
  unfold bind at 1.
  destruct (pretrained_block_says (fst om) (snd om) (say ls1 w0))
    as (ls2 & H2 & Hs2).
  destruct (pretrained_block _ _ _) as [[m|e] w2]; cbn [snd] in H2; subst w2;
    [|now apply saves_kept_say].
  apply saves_kept_trans with (w2 := say ls2 (say ls1 w0));
    [now apply saves_kept_say|apply training_loop_saves_kept].
Qed.

(** X17. Whatever the outcome of [main], every "Checkpoint saved to"
    line it has printed names a file that, when [main] ends, holds a
    checkpoint whose epoch is the one in the name; and a checkpoint that was
    there before under such a name is still a checkpoint of that epoch (it
    may have been replaced by a later model). *)
Theorem X17_saved_lines_name_checkpoints
    (opt : options) (cuda_available : bool) (drawn : Z) (fresh : Weights)
    (orders : nat -> list Batch) (w : world) :
  let w' := snd (main opt cuda_available drawn fresh orders w) in
  (exists ls,
     stdout w' = stdout w ++ ls
     /\ forall p, In p (saved_paths ls) ->
          exists e m,
            p = model_out_path e
            /\ fs w' !! p = Some (File (Some {| ck_epoch := e; ck_model := m |})))
  /\ (forall e m,
        fs w !! model_out_path e
        = Some (File (Some {| ck_epoch := e; ck_model := m |})) ->
        exists m',
          fs w' !! model_out_path e
          = Some (File (Some {| ck_epoch := e; ck_model := m' |}))).
Proof.
  intros w'. exact (main_saves_kept opt cuda_available drawn fresh orders w).
Qed.

End Orchestrator.

(** * The theorems at work on the small instance *)

Abbreviation toy_train := (train toy_forward_backward toy_clip_grad_norm toy_sgd_step).
Abbreviation toy_main := (main toy_forward_backward toy_clip_grad_norm toy_sgd_step 0).
Abbreviation toy_main_plain := (main toy_forward_backward toy_clip_grad_norm toy_sgd_plain 0).
Abbreviation toy_world := (@empty_world Z Z).
Abbreviation toy_ck e x :=
  {| ck_epoch := e; ck_model := {| weights := x; training := true |} |}.

Example schedule_defaults_1_5 :
  map (fun e => adjust_learning_rate default_options (e - 1)) [1; 2; 3; 4; 5]
  = repeat (Ok F64.c0_1) 5.
Proof. vm_compute. reflexivity. Qed.

Example schedule_defaults_6_10 :
  map (fun e => adjust_learning_rate default_options (e - 1)) [6; 7; 8; 9; 10]
  = repeat (Ok F64.c0_05) 5.
Proof. vm_compute. reflexivity. Qed.

Example schedule_defaults_11_15 :
  map (fun e => adjust_learning_rate default_options (e - 1)) [11; 12; 13; 14; 15]
  = repeat (Ok F64.c0_025) 5.
Proof. vm_compute. reflexivity. Qed.

Lemma C1_witness :
  1 <= 7 /\ step default_options <> 0
  /\ adjust_learning_rate default_options (7 - 1)
     = schedule_spec (lr default_options) (step default_options) 7
  /\ schedule_spec (lr default_options) (step default_options) 7 = Ok F64.c0_05.
Proof.
  assert (H1 : 1 <= 7) by lia.
  assert (H2 : step default_options <> 0) by (vm_compute; discriminate).
  split; [exact H1|]. split; [exact H2|]. split.
  - exact (proj1 (C1_learning_rate_schedule toy_forward_backward
                    toy_clip_grad_norm toy_sgd_step default_options 7 H1 H2)).
  - vm_compute. reflexivity.
Defined.

Lemma C2_witness :
  let opt := {|
    batchSize := 128; nEpochs := 50; lr := F64.c0_1; step := 5; cuda := false;
    resume := "r.pth"; start_epoch := 1; clip := F64.c0_01; threads := 1;
    momentum := F64.c0_9; weight_decay := F64.c1em4; pretrained := "p.pth";
    seed := None |} in
  let w := {| fs := <["r.pth" := File (Some (toy_ck 3 10))]>
                      (<["p.pth" := File (Some (toy_ck 8 20))]> ∅);
              stdout := []; calls := [] |} in
  exists opt' model' w',
    toy_main opt false 42 0 toy_orders w
    = training_loop toy_forward_backward toy_clip_grad_norm toy_sgd_step 0
        opt' (new_loader toy_orders) model' w'
    /\ start_epoch opt' = 4 /\ weights model' = 20.
Proof.
  intros opt w.
  pose proof (C2_resume_then_pretrained toy_forward_backward toy_clip_grad_norm
                toy_sgd_step 0 opt false 42 0 toy_orders w
                (toy_ck 3 10) (toy_ck 8 20)
                eq_refl eq_refl eq_refl) as H.
  specialize (H ltac:(vm_compute; reflexivity) ltac:(vm_compute; reflexivity)).
  cbv zeta in H. destruct H as (_ & _ & Hmain & Hstart & _ & Hweights).
  do 3 eexists. split; [exact Hmain|]. split; [exact Hstart|exact Hweights].
Defined.

Lemma toy_sgd_plain_momentum_free : momentum_free toy_sgd_plain.
Proof. intros gs m1 m2 x g. reflexivity. Qed.

Lemma C3_witness :
  exists fA wA fC wC,
    toy_main_plain (set_nEpochs (set_start_epoch default_options 1) 5)
      false 1 100 toy_orders toy_world = (Ok fA, wA)
    /\ fst (toy_main_plain
              (set_resume (set_nEpochs default_options 5) (model_out_path 3))
              false 3 0 (fun k => toy_orders (3 + k)) wC) = Ok fC
    /\ fs wC !! model_out_path 3 <> None
    /\ start_epoch (f_opt fC) = 4
    /\ weights (f_model fC) = weights (f_model fA).
Proof.
  destruct (C3_resume_continuity toy_forward_backward toy_clip_grad_norm
              toy_sgd_plain 0 default_options false 1 2 3 100 0
              toy_orders toy_orders (fun k => toy_orders (3 + k)) toy_world
              eq_refl eq_refl eq_refl
              ltac:(vm_compute; reflexivity)
              (conj eq_refl (conj eq_refl eq_refl))
              (conj eq_refl eq_refl))
    as (fA & wA & fB & wB & fC & wC & HA & HB & HC & HfB & Hstart & _ & _ & _ & _ & Hw).
  exists fA, wA, fC, wB. split; [exact HA|]. split; [rewrite HC; reflexivity|].
  split; [rewrite HfB; discriminate|]. split; [exact Hstart|].
  apply Hw, toy_sgd_plain_momentum_free.
Defined.

Lemma C5_witness :
  let loader := new_loader (fun _ : nat => repeat 1 250) in
  let optimizer := SGD 0 default_options in
  exists r w' lines,
    toy_train default_options loader optimizer (new_model 0) 1 toy_world = (Ok r, w')
    /\ stdout w' = LEpochLr 1 F64.c0_1 :: lines
    /\ logged_iterations lines = [100; 200].
Proof.
  intros loader optimizer.
  destruct (C5_progress_lines toy_forward_backward toy_clip_grad_norm toy_sgd_step
              default_options loader optimizer (new_model 0) 1 toy_world
              ltac:(vm_compute; reflexivity) ltac:(discriminate))
    as (l' & o' & m' & w' & lines & Hrun & Hout & Hlog & _).
  exists (l', o', m'), w', lines. split; [exact Hrun|]. split; [exact Hout|].
  rewrite Hlog. vm_compute. reflexivity.
Defined.

Lemma C6_witness :
  let loader := new_loader toy_orders in
  let optimizer := SGD 0 default_options in
  (exists r w',
     toy_train default_options loader optimizer (new_model 0) 1 toy_world = (Ok r, w')
     /\ clip_thresholds (calls w') = repeat (F64.div F64.c0_01 F64.c0_1) 3)
  /\ py_fdiv F64.c0_01 (py_fmul F64.c0_1 F64.two)
     = Ok (F64.halve (F64.div F64.c0_01 F64.c0_1)).
Proof.
  intros loader optimizer.
  destruct (C6_clip_threshold toy_forward_backward toy_clip_grad_norm toy_sgd_step
              default_options loader optimizer (new_model 0) 1 toy_world
              ltac:(vm_compute; reflexivity) ltac:(discriminate))
    as [(r & w' & cs & Hrun & _ & Hcalls & Hthr & _) Hhalf].
  split.
  - exists r, w'. split; [exact Hrun|]. rewrite Hcalls. exact Hthr.
  - refine (proj1 (proj2 (proj2 (Hhalf false 5764607523034235%positive (-59) false
                                   7205759403792794%positive (-56)
                                   eq_refl eq_refl _ _ _ _)))).
    + lia.
    + vm_compute. discriminate.
    + lia.
    + intros s'. vm_compute. discriminate.
Defined.

Lemma C7_witness :
  let opt := set_nEpochs default_options 2 in
  exists st' w',
    epochs_loop toy_forward_backward toy_clip_grad_norm toy_sgd_step opt [1; 2]
      (new_loader (fun _ : nat => []), SGD 0 opt, new_model 100) toy_world
    = (Ok st', w')
    /\ calls w' = []
    /\ weights (snd st') = 100
    /\ fs w' !! model_out_path 2 <> None.
Proof.
  intros opt.
  assert (Hrate : forall e, start_epoch opt <= e <= nEpochs opt ->
                            exists v, adjust_learning_rate opt (e - 1) = Ok v).
  { intros e He. change (1 <= e <= 2) in He.
    assert (e = 1 \/ e = 2) as [-> | ->] by lia; eexists; vm_compute; reflexivity. }
  destruct (C7_empty_loader toy_forward_backward toy_clip_grad_norm toy_sgd_step
              opt (new_loader (fun _ : nat => [])) (SGD 0 opt) (new_model 100)
              toy_world (fun _ => eq_refl) Hrate ltac:(discriminate))
    as (_ & st' & w' & Hrun & Hcalls & Hw & Hfiles).
  exists st', w'. split; [exact Hrun|]. split; [exact Hcalls|]. split; [exact Hw|].
  destruct (Hfiles 2 ltac:(vm_compute; split; discriminate)) as (m & Hm & _).
  rewrite Hm. discriminate.
Defined.

Lemma C8_witness :
  let opt := set_resume default_options "nowhere.pth" in
  toy_main opt false 42 100 toy_orders toy_world
  = training_loop toy_forward_backward toy_clip_grad_norm toy_sgd_step 0
      (set_seed opt 42) (new_loader toy_orders) (new_model 100)
      (say [LNoCheckpointFound "nowhere.pth"] (say (banner opt 42) toy_world)).
Proof.
  intros opt.
  refine (proj1 (proj2 (proj2 (C8_missing_paths toy_forward_backward
            toy_clip_grad_norm toy_sgd_step 0 opt false 42 100 toy_orders
            toy_world eq_refl _ _)))).
  - intros _ c. vm_compute. discriminate.
  - intros H. vm_compute in H. discriminate.
Defined.

Lemma C10_witness :
  step default_options <> 0
  /\ adjust_learning_rate default_options (26 - 1) = Ok (S754_finite false 7205759403792794 (-61))
  /\ F64.is_positive (S754_finite false 7205759403792794 (-61)) = true.
Proof.
  assert (HS : step default_options <> 0) by (vm_compute; discriminate).
  split; [exact HS|].
  destruct (proj1 (C10_rate_sign toy_forward_backward toy_clip_grad_norm
                     toy_sgd_step default_options 26 HS)
              7205759403792794%positive (-56) eq_refl eq_refl eq_refl
              ltac:(vm_compute; split; discriminate)
              ltac:(vm_compute; split; discriminate))
    as (Hrate & Hpos & _).
  split; [exact Hrate|exact Hpos].
Defined.

(** ** Where the claims as stated fail *)

(** C6: with [--clip 1.43e-322] the threshold for the rate 10.0 is three
    units of the last place and for the rate 20.0 it is one, not half. *)
Lemma C6_counterexample :
  let c := S754_finite false 29 (-1074) in
  let r := S754_finite false 5629499534213120 (-49) in
  let opt1 := {|
    batchSize := 128; nEpochs := 50; lr := r; step := 5; cuda := false;
    resume := ""; start_epoch := 1; clip := c; threads := 1;
    momentum := F64.c0_9; weight_decay := F64.c1em4; pretrained := "";
    seed := None |} in
  let opt2 := {|
    batchSize := 128; nEpochs := 50; lr := py_fmul r F64.two; step := 5;
    cuda := false; resume := ""; start_epoch := 1; clip := c; threads := 1;
    momentum := F64.c0_9; weight_decay := F64.c1em4; pretrained := "";
    seed := None |} in
  let thresholds opt :=
    clip_thresholds
      (calls (snd (toy_train opt (new_loader toy_orders) (SGD 0 opt)
                     (new_model 100) 1 toy_world))) in
  F64.valid c = true /\ F64.valid r = true
  /\ py_fmul r F64.two = S754_finite false 5629499534213120 (-48)
  /\ thresholds opt1 = repeat (S754_finite false 3 (-1074)) 3
  /\ thresholds opt2 = repeat (S754_finite false 1 (-1074)) 3
  /\ ~ (F64.to_Q (S754_finite false 1 (-1074))
        == F64.to_Q (S754_finite false 3 (-1074)) / 2)%Q
  /\ py_fmul (S754_finite false 3 (-1074)) F64.half <> S754_finite false 1 (-1074).
Proof.
  cbv zeta. repeat split; try (vm_compute; reflexivity).
  - intros H. vm_compute in H. discriminate.
  - vm_compute. discriminate.
Qed.

(** C7: with [--step 0] the epoch raises although the loader is empty, and
    no checkpoint is written. *)
Lemma C7_counterexample :
  let opt := set_step default_options 0 in
  let run := toy_main opt false 42 100 (fun _ : nat => []) toy_world in
  fst run = Raise ZeroDivisionError
  /\ fs (snd run) !! model_out_path 1 = None
  /\ calls (snd run) = [].
Proof. cbv zeta. repeat split; vm_compute; reflexivity. Qed.

(** C10: with [--lr 0.1 --step 1], [0.5 ** 1075] is [0.0], so the rate of
    epoch 1076 is [0.0] and the first batch divides by zero. *)
Lemma C10_counterexample :
  let opt := set_step default_options 1 in
  F64.is_positive (lr opt) = true
  /\ adjust_learning_rate opt (1076 - 1) = Ok (S754_zero false)
  /\ F64.is_positive (S754_zero false) = false
  /\ py_fdiv (clip opt) (S754_zero false) = Raise ZeroDivisionError
  /\ fst (toy_train opt (new_loader toy_orders) (SGD 0 opt) (new_model 100)
            1076 toy_world) = Raise ZeroDivisionError.
Proof. cbv zeta. repeat split; vm_compute; reflexivity. Qed.


(** ** The further properties on the small instance *)

Lemma X2_witness :
  adjust_learning_rate default_options (7 - 1) = Ok F64.c0_05
  /\ adjust_learning_rate default_options (7 + 5 - 1) = Ok F64.c0_025
  /\ adjust_learning_rate default_options (2 * 5 + 3)
     = adjust_learning_rate default_options (2 * 5).
Proof.
  destruct (X2_rate_halves_every_step default_options 7 false
              7205759403792794%positive (-56)
              ltac:(vm_compute; discriminate) eq_refl eq_refl eq_refl
              ltac:(vm_compute; split; discriminate)
              ltac:(vm_compute; split; discriminate)) as (H1 & H2 & H3).
  split; [exact H1|]. split; [exact H2|].
  apply (H3 2 3). vm_compute. split; [discriminate|reflexivity].
Defined.

Lemma X3_witness :
  adjust_learning_rate default_options (0 - 1)
  = Ok (S754_finite false 7205759403792794 (-55)).
Proof.
  exact (proj2 (X3_rate_doubles_below_epoch_one default_options 0
                  ltac:(vm_compute; discriminate)
                  ltac:(vm_compute; split; discriminate))
           false 7205759403792794%positive (-56) eq_refl eq_refl eq_refl
           ltac:(vm_compute; discriminate)).
Defined.

Lemma X5_witness :
  exists st' w' m,
    epochs_loop toy_forward_backward toy_clip_grad_norm toy_sgd_step
      default_options [1; 2; 3]
      (new_loader toy_orders, SGD 0 default_options, new_model 100) toy_world
    = (Ok st', w')
    /\ fs w' !! model_out_path 2
       = Some (File (Some {| ck_epoch := 2; ck_model := m |}))
    /\ m = snd (epochs_state toy_forward_backward toy_clip_grad_norm toy_sgd_step
                  default_options toy_orders 0 [1; 2]
                  (SGD 0 default_options, new_model 100))
    /\ fs w' !! "data/train_291_32_x234.h5" = None.
Proof.
  destruct (X5_checkpoints_of_a_run toy_forward_backward toy_clip_grad_norm
              toy_sgd_step default_options [1; 2; 3] (new_loader toy_orders)
              (SGD 0 default_options) (new_model 100) toy_world
              ltac:(vm_compute; reflexivity) ltac:(discriminate)
              ltac:(repeat constructor; vm_compute; intuition discriminate))
    as (st' & w' & Hrun & Hfiles & Hframe & _).
  exists st', w'. eexists. split; [exact Hrun|].
  split; [exact (Hfiles 1%nat 2 eq_refl)|]. split; [reflexivity|].
  rewrite Hframe; [reflexivity| |discriminate].
  intros e [<-|[<-|[<-|[]]]]; vm_compute; discriminate.
Defined.


Lemma X7_witness :
  let opt := set_resume default_options "last.pth" in
  let w := {| fs := <["last.pth" := File (Some (toy_ck 50 10))]> ∅;
              stdout := []; calls := [] |} in
  exists f w',
    toy_main opt false 42 0 toy_orders w = (Ok f, w')
    /\ weights (f_model f) = 10
    /\ start_epoch (f_opt f) = 51
    /\ fs w' = fs w /\ calls w' = [] /\ saved_paths (stdout w') = [].
Proof.
  intros opt w.
  destruct (X7_resume_after_last_epoch toy_forward_backward toy_clip_grad_norm
              toy_sgd_step 0 opt false 42 0 toy_orders w (toy_ck 50 10)
              eq_refl eq_refl ltac:(vm_compute; reflexivity) eq_refl
              ltac:(vm_compute; discriminate))
    as (f & w' & Hrun & Hw & Hs & _ & _ & Hfs & Hcalls & Hsaved).
  exists f, w'. split; [exact Hrun|]. split; [exact Hw|]. split; [exact Hs|].
  split; [exact Hfs|]. split; [exact Hcalls|exact Hsaved].
Defined.

Lemma X8_witness :
  let opt := {|
    batchSize := 128; nEpochs := 50; lr := F64.c0_1; step := 5; cuda := false;
    resume := ""; start_epoch := 1; clip := F64.c0_01; threads := 1;
    momentum := F64.c0_9; weight_decay := F64.c1em4; pretrained := "p.pth";
    seed := None |} in
  let w := {| fs := <["p.pth" := File (Some (toy_ck 8 20))]> ∅;
              stdout := []; calls := [] |} in
  exists model',
    toy_main opt false 42 0 toy_orders w
    = training_loop toy_forward_backward toy_clip_grad_norm toy_sgd_step 0
        (set_seed opt 42) (new_loader toy_orders) model'
        (say [LLoadModel "p.pth"] (say (banner opt 42) w))
    /\ weights model' = 20
    /\ start_epoch (set_seed opt 42) = 1.
Proof.
  intros opt w.
  destruct (X8_pretrained_keeps_start_epoch toy_forward_backward
              toy_clip_grad_norm toy_sgd_step 0 opt false 42 0 toy_orders w
              (toy_ck 8 20) eq_refl eq_refl eq_refl
              ltac:(vm_compute; reflexivity))
    as (Hmain & Hw & Hs & _).
  eexists. split; [exact Hmain|]. split; [exact Hw|exact Hs].
Defined.

Lemma X9_witness :
  exists loader' optimizer' model' w',
    epochs_loop toy_forward_backward toy_clip_grad_norm toy_sgd_step
      default_options [5; 6]
      (new_loader toy_orders, SGD 0 default_options, new_model 100) toy_world
    = (Ok (loader', optimizer', model'), w')
    /\ map pg_lr (param_groups optimizer') = [F64.c0_05]
    /\ map pg_momentum (param_groups optimizer') = [F64.c0_9]
    /\ pass loader' = 2%nat.
Proof.
  destruct (X9_groups_keep_momentum_and_decay toy_forward_backward
              toy_clip_grad_norm toy_sgd_step default_options [5; 6]
              (new_loader toy_orders) (SGD 0 default_options) (new_model 100)
              toy_world ltac:(vm_compute; reflexivity) ltac:(discriminate))
    as (l' & o' & m' & w' & Hrun & Hm & _ & _ & Hlr & Hpass & _).
  exists l', o', m', w'. split; [exact Hrun|].
  split; [rewrite (Hlr ltac:(discriminate)); vm_compute; reflexivity|].
  split; [exact Hm|exact Hpass].
Defined.



Lemma X12_witness :
  let opt := set_nEpochs default_options 3 in
  exists f w',
    training_loop toy_forward_backward toy_clip_grad_norm toy_sgd_step 0 opt
      (new_loader toy_orders) (new_model 100) toy_world = (Ok f, w')
    /\ saved_paths (stdout w')
       = ["model/model_epoch_1.pth"; "model/model_epoch_2.pth";
          "model/model_epoch_3.pth"].
Proof.
  intros opt.
  destruct (X12_one_checkpoint_line_per_epoch toy_forward_backward
              toy_clip_grad_norm toy_sgd_step 0 opt (new_loader toy_orders)
              (new_model 100) toy_world ltac:(vm_compute; reflexivity))
    as (f & w' & Hrun & Hsaved & _).
  exists f, w'. split; [exact Hrun|]. rewrite Hsaved. vm_compute. reflexivity.
Defined.

Lemma X13_witness :
  adjust_learning_rate default_options (1 - 1) = Ok F64.c0_1
  /\ adjust_learning_rate default_options (1 + 5 - 1) = Ok F64.c0_05
  /\ py_fdiv F64.c0_01 F64.c0_1 = Ok (F64.halve (F64.div F64.c0_01 F64.c0_05)).
Proof.
  destruct (X13_threshold_doubles_every_step default_options 1 false false
              7205759403792794%positive 5764607523034235%positive (-56) (-59)
              ltac:(vm_compute; discriminate) eq_refl eq_refl eq_refl eq_refl
              ltac:(vm_compute; split; discriminate)
              ltac:(vm_compute; split; discriminate)
              ltac:(vm_compute; discriminate)
              ltac:(vm_compute; discriminate)
              ltac:(intros s'; vm_compute; discriminate))
    as (H1 & H2 & H3 & _).
  split; [exact H1|]. split; [exact H2|exact H3].
Defined.

Lemma X14_witness :
  let opt := set_step default_options (-1) in
  toy_train opt (new_loader toy_orders) (SGD 0 opt) (new_model 100) 1025 toy_world
  = (Raise OverflowError, toy_world).
Proof.
  intros opt.
  exact (proj2 (X14_negative_step_overflows toy_forward_backward
                  toy_clip_grad_norm toy_sgd_step opt 1025
                  (new_loader toy_orders) (SGD 0 opt) (new_model 100) toy_world
                  ltac:(vm_compute; reflexivity)
                  ltac:(vm_compute; discriminate))).
Defined.

